(** * Bulk Extractor task: report aggregation and result lifecycle

  A shallow embedding of [turbinia/workers/bulk_extractor.py]
  ([BulkExtractorTask.run] and
  [BulkExtractorTask.generate_summary_report]) and the properties of its
  report parsing and of the life cycle of the task result.

  Conventions of the embedding.
  - Python [str] values are [string]s; each character stands for a code
    point below 256.
  - Python [int] is [Z].
  - A raised exception is a value of [Exn]; a call either returns or
    raises ([Outcome]).
  - The collaborators that live outside the module (the formatter
    functions of [turbinia.lib.text_formatter], the file system, the
    [execute] and [compress] methods) are taken as parameters. *)

From Stdlib Require Import List String Ascii ZArith Lia Bool.
From Stdlib Require Import DecimalString.
Import ListNotations.

Local Open Scope string_scope.
Local Open Scope Z_scope.

(** ** Exceptions and outcomes *)

(** The exceptions the task meets. [str(exception)] is [message] for the
    two classes whose text the program reads. *)
Inductive Exn : Type :=
| TurbiniaException (message : string)
| AttributeError (message : string)
| StopIteration
| ValueError (literal : string)
| TypeError
| ParseError
| OSError
| OtherError (message : string).

(** [isinstance(e, TurbiniaException)]: the class [run] catches. *)
Definition is_TurbiniaException (e : Exn) : bool :=
  match e with
  | TurbiniaException _ => true
  | _ => false
  end.

Inductive Outcome (A : Type) : Type :=
| Returned (a : A)
| Raised (e : Exn).

Arguments Returned {A} a.
Arguments Raised {A} e.

(** ** The element tree of [xml.etree.ElementTree] *)

Module ElementTree.

(** An element: its tag, its text ([None] when the element has no
    character data) and its children in document order. *)
#[warnings="-register-all"]
Inductive Element : Type :=
| Elem (tag : string) (text : option string) (children : list Element).

Definition tag (e : Element) : string :=
  match e with Elem t _ _ => t end.

Definition text (e : Element) : option string :=
  match e with Elem _ x _ => x end.

Definition children (e : Element) : list Element :=
  match e with Elem _ _ c => c end.

(** One step of a path made of plain tag names: the children, in
    document order, of the elements of [context] whose tag is [t]. *)
Definition select_child (t : string) (context : list Element) : list Element :=
  flat_map (fun e => filter (fun c => String.eqb (tag c) t) (children e)) context.

(** [iterfind] for a path ["a/b/c"], given as its segments. *)
Definition iterfind (root : Element) (path : list string) : list Element :=
  fold_left (fun context t => select_child t context) path [root].

(** [ElementTree.find(path)]: the first match below the root, or [None]. *)
Definition find (root : Element) (path : list string) : option Element :=
  hd_error (iterfind root path).

(** [Element.iter()]: the element itself, then all its descendants, in
    document order. *)
Fixpoint iter (e : Element) : list Element :=
  match e with
  | Elem _ _ cs => e :: flat_map iter cs
  end.

End ElementTree.
Import ElementTree.

(** ** Builtins: [int(str)], [str.format], [str.join] *)

Module Builtins.

Definition newline : string := String (ascii_of_nat 10) EmptyString.

(** ['\n'.join(lines)] *)
Definition join (sep : string) (lines : list string) : string :=
  String.concat sep lines.

(** ['{0}'.format(n)] for an integer. *)
Definition str_int (n : Z) : string :=
  NilZero.string_of_int (Z.to_int n).

(** ['{0}'.format(x)] for an element text, which is a string or [None]. *)
Definition str_text (x : option string) : string :=
  match x with
  | Some s => s
  | None => "None"
  end.

(** The characters [int] skips around a literal: tab to carriage return,
    space, and the two spaces above 127 (next line, no-break space). *)
Definition is_space (c : ascii) : bool :=
  let n := nat_of_ascii c in
  ((9 <=? n) && (n <=? 13) || (n =? 32) || (n =? 133) || (n =? 160))%nat.

Definition is_digit (c : ascii) : bool :=
  let n := nat_of_ascii c in ((48 <=? n) && (n <=? 57))%nat.

Definition digit_value (c : ascii) : Z :=
  Z.of_nat (nat_of_ascii c) - 48.

Definition underscore : ascii := "_"%char.

Fixpoint skip_spaces (s : list ascii) : list ascii :=
  match s with
  | c :: rest => if is_space c then skip_spaces rest else s
  | [] => []
  end.

(** The digits of a literal, read left to right with the value so far:
    a digit extends the value; an underscore must stand between two
    digits; white space may end the literal; anything else is an error. *)
Fixpoint read_digits (acc : Z) (s : list ascii) : option Z :=
  match s with
  | [] => Some acc
  | c :: rest =>
      if is_digit c then read_digits (10 * acc + digit_value c) rest
      else if Ascii.eqb c underscore then
        match rest with
        | d :: rest' =>
            if is_digit d then read_digits (10 * acc + digit_value d) rest'
            else None
        | [] => None
        end
      else if is_space c then
        match skip_spaces rest with
        | [] => Some acc
        | _ :: _ => None
        end
      else None
  end.

(** An unsigned literal starts with a digit. *)
Definition read_unsigned (s : list ascii) : option Z :=
  match s with
  | c :: rest => if is_digit c then read_digits (digit_value c) rest else None
  | [] => None
  end.

(** [int(s)] in base ten: [None] stands for [ValueError]. *)
Definition int_of_chars (s : list ascii) : option Z :=
  match skip_spaces s with
  | c :: rest =>
      if Ascii.eqb c "+"%char then read_unsigned rest
      else if Ascii.eqb c "-"%char then option_map Z.opp (read_unsigned rest)
      else read_unsigned (c :: rest)
  | [] => None
  end.

(** [int(x)] for an element text: [TypeError] on [None], [ValueError] on
    a string that is not an integer literal. *)
Definition int (x : option string) : Outcome Z :=
  match x with
  | None => Raised TypeError
  | Some s =>
      match int_of_chars (list_ascii_of_string s) with
      | Some n => Returned n
      | None => Raised (ValueError s)
      end
  end.

(** A decimal count: a non-empty string of the digits 0 to 9. *)
Definition all_digits (s : list ascii) : bool := forallb is_digit s.

Definition is_decimal (s : string) : bool :=
  match list_ascii_of_string s with
  | [] => false
  | cs => all_digits cs
  end.

(** The number a decimal count denotes. *)
Definition decimal_value (s : string) : Z :=
  fold_left (fun acc c => 10 * acc + digit_value c) (list_ascii_of_string s) 0.

End Builtins.
Import Builtins.

(** ** [os.path] on POSIX paths *)

Module Path.

Definition sep : ascii := "/"%char.

Definition startswith_sep (p : string) : bool :=
  match p with
  | String c _ => Ascii.eqb c sep
  | EmptyString => false
  end.

Fixpoint endswith_sep (p : string) : bool :=
  match p with
  | EmptyString => false
  | String c EmptyString => Ascii.eqb c sep
  | String _ rest => endswith_sep rest
  end.

(** [os.path.join(a, b)] *)
Definition join (a b : string) : string :=
  if startswith_sep b then b
  else if (String.eqb a "" || endswith_sep a)%bool then a ++ b
  else a ++ String sep b.

(** [os.path.basename(p)]: what follows the last separator. *)
Fixpoint basename (p : string) : string :=
  match p with
  | EmptyString => EmptyString
  | String c rest =>
      if Ascii.eqb c sep then basename rest
      else if existsb (Ascii.eqb sep) (list_ascii_of_string rest) then basename rest
      else p
  end.

End Path.


(** ** State and exceptions

    A block of statements that mutates local state and may raise: the
    state reached is kept when an exception leaves the block, which is
    what a handler (and the code after it) observes. *)

Definition Block (S A : Type) : Type := S -> S * Outcome A.

Definition ret {S A : Type} (a : A) : Block S A :=
  fun s => (s, Returned a).

Definition raise {S A : Type} (e : Exn) : Block S A :=
  fun s => (s, Raised e).

Definition bind {S A B : Type} (m : Block S A) (k : A -> Block S B) : Block S B :=
  fun s =>
    match m s with
    | (s', Returned a) => k a s'
    | (s', Raised e) => (s', Raised e)
    end.

Definition modify {S : Type} (f : S -> S) : Block S unit :=
  fun s => (f s, Returned tt).

(** An expression that returns or raises without touching the state. *)
Definition eval {S A : Type} (o : Outcome A) : Block S A :=
  fun s => (s, o).

Declare Scope block_scope.
Delimit Scope block_scope with block.

Notation "x <- m ;; k" := (bind m (fun x => k))
  (at level 100, m at next level, right associativity) : block_scope.
Notation "m ;; k" := (bind m (fun _ => k))
  (at level 100, right associativity) : block_scope.

(** ** The report file, as the parser meets it

    What [os.path.exists] and [xml.etree.ElementTree.parse] observe at a
    path: nothing there; something there that cannot be opened for reading
    (a directory, a file without read permission), on which [parse] raises
    an [OSError]; a file that does not parse; or a document with its root
    element. *)

Inductive ReportFile : Type :=
| NoFile
| Unreadable
| Malformed
| Document (root : Element).

Definition FileSystem : Type := string -> ReportFile.

(** The local variables of [generate_summary_report]. *)
Record Locals : Type := mkLocals {
  findings : list string;
  features_count : Z
}.

(** [xml.find(path).text]: the lookup on [None] raises [AttributeError]. *)
Definition text_of (found : option Element) : Outcome (option string) :=
  match found with
  | Some e => Returned (text e)
  | None => Raised (AttributeError "'NoneType' object has no attribute 'text'")
  end.

(** [findings.append(line)] *)
Definition append (line : string) : Block Locals unit :=
  modify (fun l => mkLocals (findings l ++ [line]) (features_count l)).

(** [features_count += n] *)
Definition add_features (n : Z) : Block Locals unit :=
  modify (fun l => mkLocals (findings l) (features_count l + n)).

Definition not_available : string :=
  "Execution successful, but the report is not available.".

Definition no_findings : string := "There are no findings to report.".

(** The message of [log.warning] in the handler of [AttributeError]. *)
Definition warning_of (message : string) : string :=
  "Error parsing feature from Bulk Extractor report: " ++ message.

(** ['{0} artifacts have been extracted.'.format(features_count)] *)
Definition summary_of (count : Z) : string :=
  str_int count ++ " artifacts have been extracted.".

Section Task.

(** [heading4], [heading5] and [bullet] of [turbinia.lib.text_formatter]. *)
Variables heading4 heading5 bullet : string -> string.

Local Open Scope block_scope.

(** The loop [for f in feature_iter] of [generate_summary_report]. The
    loop and the two calls of [next] draw from one iterator, so an element
    read by [next] is not met by the loop again; [next] on the exhausted
    iterator raises [StopIteration]. *)
Fixpoint scan (feature_iter : list Element) : Block Locals unit :=
  match feature_iter with
  | [] => ret tt
  | f :: rest =>
      if String.eqb (tag f) "feature_file" then
        match rest with
        | name :: count :: rest' =>
            append (bullet (str_text (text name) ++ ":" ++ str_text (text count))) ;;
            n <- eval (int (text count)) ;;
            add_features n ;;
            scan rest'
        | _ => raise StopIteration
        end
      else scan rest
  end.

(** The body of the [try] statement of [generate_summary_report]. *)
Definition extract (xml : Element) : Block Locals unit :=
  append (heading4 "Bulk Extractor Results") ;;
  append (heading5 "Run Summary") ;;
  program <- eval (text_of (find xml ["creator"; "program"])) ;;
  version <- eval (text_of (find xml ["creator"; "version"])) ;;
  append (bullet ("Program: " ++ str_text program ++ " - " ++ str_text version)) ;;
  command_line <- eval (text_of (find xml ["creator"; "execution_environment"; "command_line"])) ;;
  append (bullet ("Command Line: " ++ str_text command_line)) ;;
  start_time <- eval (text_of (find xml ["creator"; "execution_environment"; "start_time"])) ;;
  append (bullet ("Start Time: " ++ str_text start_time)) ;;
  elapsed_seconds <- eval (text_of (find xml ["report"; "elapsed_seconds"])) ;;
  append (bullet ("Elapsed Time: " ++ str_text elapsed_seconds)) ;;
  match find xml ["feature_files"] with
  | Some feature_files =>
      let feature_iter := iter feature_files in
      append (heading5 "Scanner Results") ;;
      scan feature_iter
  | None => append (heading5 no_findings)
  end.

(** What the function hands back after the [try] statement. *)
Definition render (l : Locals) : string * string :=
  (join newline (findings l), summary_of (features_count l)).

(** [generate_summary_report(output_file_path)] on a file system: the
    warnings logged, and the pair [(report, summary)] returned or the
    exception raised. *)
Definition generate_summary_report (fs : FileSystem) (output_file_path : string)
  : list string * Outcome (string * string) :=
  let report_path := Path.join output_file_path "report.xml" in
  match fs report_path with
  | NoFile => ([], Returned (not_available, not_available))
  | Unreadable => ([], Raised OSError)
  | Malformed => ([], Raised ParseError)
  | Document xml =>
      match extract xml (mkLocals [] 0) with
      | (l, Returned _) => ([], Returned (render l))
      | (l, Raised (AttributeError message)) =>
          ([warning_of message], Returned (render l))
      | (_, Raised exception) => ([], Raised exception)
      end
  end.

End Task.

(** ** The task and its collaborators *)

(** The part of [TurbiniaTaskResult] the task touches: the lines logged
    through [result.log], the [report_data] attribute, and the calls of
    [result.close] made so far, each with its [success] and [status]. *)
Record TurbiniaTaskResult : Type := mkResult {
  result_log : list string;
  report_data : option string;
  close_calls : list (bool * string)
}.

(** [BulkExtractorOutput]: the evidence the task produces. *)
Record BulkExtractorOutput : Type := mkOutput {
  local_path : option string;
  text_data : option string;
  compressed : bool
}.

(** The calls the task makes to methods that do work outside it. *)
Inductive Call : Type :=
| CallExecute (cmd : string)
| CallGenerateSummaryReport (output_file_path : string)
| CallCompress (path : option string).

(** What the surroundings answer: whether [self.execute] returns ([None])
    or raises on a command, the files found once the tool has run, and
    whether [compress] returns or raises. *)
Record Host : Type := mkHost {
  execute : string -> option Exn;
  files : FileSystem;
  compress : option string -> option Exn
}.

(** The objects [run] works on, with the calls made and warnings logged. *)
Record TaskState : Type := mkState {
  result : TurbiniaTaskResult;
  output_evidence : BulkExtractorOutput;
  calls : list Call;
  warnings : list string
}.

(** [result.log(line)] *)
Definition log_result (line : string) : Block TaskState unit :=
  modify (fun s =>
    let r := result s in
    mkState (mkResult (result_log r ++ [line]) (report_data r) (close_calls r))
            (output_evidence s) (calls s) (warnings s)).

(** [result.close(self, success, status)] *)
Definition close_result (success : bool) (status : string) (s : TaskState) : TaskState :=
  let r := result s in
  mkState (mkResult (result_log r) (report_data r) (close_calls r ++ [(success, status)]))
          (output_evidence s) (calls s) (warnings s).

Definition record_call (c : Call) : Block TaskState unit :=
  modify (fun s => mkState (result s) (output_evidence s) (calls s ++ [c]) (warnings s)).

(** A call that returns nothing, or raises. *)
Definition answer (a : option Exn) : Block TaskState unit :=
  match a with
  | None => ret tt
  | Some e => raise e
  end.

(** [output_evidence.text_data = report] *)
Definition set_text_data (report : string) : Block TaskState unit :=
  modify (fun s =>
    let o := output_evidence s in
    mkState (result s) (mkOutput (local_path o) (Some report) (compressed o))
            (calls s) (warnings s)).

(** [result.report_data = output_evidence.text_data] *)
Definition set_report_data : Block TaskState unit :=
  modify (fun s =>
    let r := result s in
    mkState (mkResult (result_log r) (text_data (output_evidence s)) (close_calls r))
            (output_evidence s) (calls s) (warnings s)).

Definition mark_compressed : Block TaskState unit :=
  modify (fun s =>
    let o := output_evidence s in
    mkState (result s) (mkOutput (local_path o) (text_data o) true)
            (calls s) (warnings s)).

(** ['bulk_extractor {0:s} -o {1:s}'.format(evidence.local_path, output_file_path)] *)
Definition command (evidence_local_path output_file_path : string) : string :=
  "bulk_extractor " ++ evidence_local_path ++ " -o " ++ output_file_path.

Section Run.

Variables heading4 heading5 bullet : string -> string.

Local Open Scope block_scope.

(** The call [self.generate_summary_report(output_file_path)] made by
    [run]: its warnings go to the log, its outcome to the caller. *)
Definition call_generate_summary_report (fs : FileSystem) (output_file_path : string)
  : Block TaskState (string * string) :=
  fun s =>
    let '(logged, outcome) :=
      generate_summary_report heading4 heading5 bullet fs output_file_path in
    (mkState (result s) (output_evidence s)
             (calls s ++ [CallGenerateSummaryReport output_file_path])
             (warnings s ++ logged),
     outcome).

(** The body of the [try] statement of [run]. *)
Definition attempt (host : Host) (evidence_local_path output_file_path : string)
  : Block TaskState unit :=
  let cmd := command evidence_local_path output_file_path in
  log_result ("Running Bulk Extractor as [" ++ cmd ++ "]") ;;
  record_call (CallExecute cmd) ;;
  answer (execute host cmd) ;;
  generated <- call_generate_summary_report (files host) output_file_path ;;
  let '(report, summary) := generated in
  set_text_data report ;;
  set_report_data ;;
  s <- (fun s => (s, Returned s)) ;;
  record_call (CallCompress (local_path (output_evidence s))) ;;
  answer (compress host (local_path (output_evidence s))) ;;
  mark_compressed ;;
  modify (close_result true summary).

(** [run(evidence, result)] for a task whose output directory is
    [output_dir]: the state it leaves, and the result it returns or the
    exception it lets through. *)
Definition run (host : Host) (output_dir evidence_local_path : string)
    (result0 : TurbiniaTaskResult) : TaskState * Outcome TurbiniaTaskResult :=
  let base_name := Path.basename evidence_local_path in
  let output_file_path := Path.join output_dir base_name in
  let output_evidence0 := mkOutput (Some output_file_path) None false in
  match attempt host evidence_local_path output_file_path
          (mkState result0 output_evidence0 [] []) with
  | (s, Returned _) => (s, Returned (result s))
  | (s, Raised (TurbiniaException message)) =>
      let s' := close_result false message s in
      (s', Returned (result s'))
  | (s, Raised exception) => (s, Raised exception)
  end.

End Run.

(** ** Sample collaborators, for the examples *)

Module Sample.

(** White space as [str.strip] sees it. *)
Definition is_blank (c : ascii) : bool :=
  let n := nat_of_ascii c in
  ((9 <=? n) && (n <=? 13) || (28 <=? n) && (n <=? 32) || (n =? 133) || (n =? 160))%nat.

Fixpoint lstrip (s : list ascii) : list ascii :=
  match s with
  | c :: rest => if is_blank c then lstrip rest else s
  | [] => []
  end.

(** [text.strip()] *)
Definition strip (s : string) : string :=
  string_of_list_ascii (rev (lstrip (rev (lstrip (list_ascii_of_string s))))).

(** Markdown renderings of the three formatters; each trims the white
    space around its text. *)
Definition heading4 (s : string) : string := "#### " ++ strip s.
Definition heading5 (s : string) : string := "##### " ++ strip s.
Definition bullet (s : string) : string := "* " ++ strip s.

Definition leaf (t v : string) : Element := Elem t (Some v) [].

Definition creator : Element :=
  Elem "creator" None
    [ leaf "program" "BULK_EXTRACTOR";
      leaf "version" "1.6.0";
      Elem "execution_environment" None
        [ leaf "command_line" "bulk_extractor in -o out";
          leaf "start_time" "2020-01-01T00:00:00Z" ] ].

Definition report_section : Element :=
  Elem "report" None [ leaf "elapsed_seconds" "42" ].

Definition feature (name count : string) : Element :=
  Elem "feature_file" None [ leaf "name" name; leaf "count" count ].

(** A report with the scanner entries ("email", "5") and ("url", "10"). *)
Definition scanners : Element :=
  Elem "feature_files" None [ feature "email" "5"; feature "url" "10" ].

Definition full_report : Element :=
  Elem "dfxml" None [ creator; scanners; report_section ].

(** The same report without its [elapsed_seconds] field. *)
Definition no_elapsed_report : Element :=
  Elem "dfxml" None [ creator; scanners; Elem "report" None [] ].

(** A report whose scanner-results section is there but empty. *)
Definition empty_scanners_report : Element :=
  Elem "dfxml" None [ creator; Elem "feature_files" None []; report_section ].

(** A report with no scanner-results section. *)
Definition no_scanners_report : Element :=
  Elem "dfxml" None [ creator; report_section ].

(** A count that is no integer literal. *)
Definition bad_count_report : Element :=
  Elem "dfxml" None
    [ creator; report_section;
      Elem "feature_files" None [ feature "email" "many" ] ].

(** A marker with a name and no count at the end of the section. *)
Definition dangling_report : Element :=
  Elem "dfxml" None
    [ creator; report_section;
      Elem "feature_files" None
        [ feature "email" "5"; Elem "feature_file" None [ leaf "name" "url" ] ] ].

(** A file system with one file, at [path]. *)
Definition only (path : string) (file : ReportFile) : FileSystem :=
  fun p => if String.eqb p path then file else NoFile.

Definition fresh_result : TurbiniaTaskResult := mkResult [] None [].

End Sample.

(** ** What the claims speak of *)

(** The run metadata of a report: the texts of its five fields. *)
Record Metadata : Type := mkMetadata {
  program : option string;
  version : option string;
  command_line : option string;
  start_time : option string;
  elapsed_seconds : option string
}.

(** The field at [path] is there, with text [value]. *)
Definition field (xml : Element) (path : list string) (value : option string) : Prop :=
  exists e, find xml path = Some e /\ text e = value.

(** A report that has all five metadata fields. *)
Definition has_metadata (xml : Element) (m : Metadata) : Prop :=
  field xml ["creator"; "program"] (program m) /\
  field xml ["creator"; "version"] (version m) /\
  field xml ["creator"; "execution_environment"; "command_line"] (command_line m) /\
  field xml ["creator"; "execution_environment"; "start_time"] (start_time m) /\
  field xml ["report"; "elapsed_seconds"] (elapsed_seconds m).

(** One scanner result as the loop reads it: the marker, then the element
    taken as its name and the element taken as its count. *)
Record Entry : Type := mkEntry {
  marker : Element;
  name : Element;
  count : Element
}.

Definition elements (t : Entry) : list Element := [marker t; name t; count t].

(** The scanner-results section [feature_files] holds exactly the entries
    [ts]: walking it meets the section itself and then, entry by entry, a
    marker, a name and a count. *)
Definition scanner_section (feature_files : Element) (ts : list Entry) : Prop :=
  iter feature_files = feature_files :: flat_map elements ts /\
  Forall (fun t => tag (marker t) = "feature_file") ts.

(** The entry's count is a decimal number. *)
Definition decimal_count (t : Entry) : Prop :=
  exists s, text (count t) = Some s /\ is_decimal s = true.

(** The number an entry counts: zero when the text is missing. *)
Definition count_value (t : Entry) : Z :=
  match text (count t) with
  | Some s => decimal_value s
  | None => 0
  end.

Definition total (ts : list Entry) : Z :=
  fold_right (fun t acc => count_value t + acc) 0 ts.

(** [needle] occurs somewhere in [text]. *)
Definition occurs (needle text : string) : bool :=
  match String.index 0 needle text with
  | Some _ => true
  | None => false
  end.

Section Lines.

Variables heading4 heading5 bullet : string -> string.

(** The lines of the run summary, for a report with all its metadata. *)
Definition run_summary (m : Metadata) : list string :=
  [ heading4 "Bulk Extractor Results";
    heading5 "Run Summary";
    bullet ("Program: " ++ str_text (program m) ++ " - " ++ str_text (version m));
    bullet ("Command Line: " ++ str_text (command_line m));
    bullet ("Start Time: " ++ str_text (start_time m));
    bullet ("Elapsed Time: " ++ str_text (elapsed_seconds m)) ].

(** The bullet of one scanner result. *)
Definition entry_line (t : Entry) : string :=
  bullet (str_text (text (name t)) ++ ":" ++ str_text (text (count t))).

(** The findings appended before the elapsed time is looked up: the two
    headings, then one bullet per field as long as the fields are there. *)
Definition before_elapsed (xml : Element) : list string :=
  [ heading4 "Bulk Extractor Results"; heading5 "Run Summary" ] ++
  match find xml ["creator"; "program"], find xml ["creator"; "version"] with
  | Some p, Some v =>
      bullet ("Program: " ++ str_text (text p) ++ " - " ++ str_text (text v)) ::
      match find xml ["creator"; "execution_environment"; "command_line"] with
      | Some c =>
          bullet ("Command Line: " ++ str_text (text c)) ::
          match find xml ["creator"; "execution_environment"; "start_time"] with
          | Some s => [ bullet ("Start Time: " ++ str_text (text s)) ]
          | None => []
          end
      | None => []
      end
  | _, _ => []
  end.

End Lines.

(** The two layouts of a scanner-results section with the given
    (name, count) pairs: every marker holding its name and its count, or
    marker, name and count side by side. *)
Definition nested_entry (p : string * string) : Entry :=
  mkEntry (Sample.feature (fst p) (snd p))
          (Sample.leaf "name" (fst p)) (Sample.leaf "count" (snd p)).

Definition nested_section (pairs : list (string * string)) : Element :=
  Elem "feature_files" None (map (fun p => marker (nested_entry p)) pairs).

Definition flat_entry (p : string * string) : Entry :=
  mkEntry (Elem "feature_file" None [])
          (Sample.leaf "name" (fst p)) (Sample.leaf "count" (snd p)).

Definition flat_section (pairs : list (string * string)) : Element :=
  Elem "feature_files" None (flat_map (fun p => elements (flat_entry p)) pairs).

(** What [run] has done once a step of its [try] statement raised
    [exception]: a task-level exception is handled, the result is closed
    as failed with its message and returned; any other exception leaves
    [run], with the result as open as it was. *)
Definition after_exception (closes0 : list (bool * string))
    (outcome : TaskState * Outcome TurbiniaTaskResult) (exception : Exn) : Prop :=
  match exception with
  | TurbiniaException message =>
      snd outcome = Returned (result (fst outcome)) /\
      close_calls (result (fst outcome)) = (closes0 ++ [(false, message)])%list
  | _ =>
      snd outcome = Raised exception /\
      close_calls (result (fst outcome)) = closes0
  end.

(** ** Further notions, for the properties beyond the claims *)

(** No element is found at [path]. *)
Definition is_missing (xml : Element) (path : list string) : bool :=
  match find xml path with
  | Some _ => false
  | None => true
  end.

(** One of the five metadata fields is missing. *)
Definition missing_field (xml : Element) : bool :=
  is_missing xml ["creator"; "program"] ||
  is_missing xml ["creator"; "version"] ||
  is_missing xml ["creator"; "execution_environment"; "command_line"] ||
  is_missing xml ["creator"; "execution_environment"; "start_time"] ||
  is_missing xml ["report"; "elapsed_seconds"].

(** The entry's count is a literal [int] takes: it may be signed, padded
    with white space, and grouped with underscores. *)
Definition integer_count (t : Entry) : Prop :=
  exists n, int (text (count t)) = Returned n.

(** The number [int] reads in an entry's count: zero when it reads none. *)
Definition literal_value (t : Entry) : Z :=
  match int (text (count t)) with
  | Returned n => n
  | Raised _ => 0
  end.

Definition literal_total (ts : list Entry) : Z :=
  fold_right (fun t acc => literal_value t + acc) 0 ts.

(** The exceptions of the scanner loop, none of which is handled. *)
Definition from_scanner_loop (e : Exn) : bool :=
  match e with
  | StopIteration | ValueError _ | TypeError => true
  | _ => false
  end.

(** [p] contains the path separator. *)
Definition has_sep (p : string) : bool :=
  existsb (Ascii.eqb Path.sep) (list_ascii_of_string p).

(** The line [run] logs to the result before it starts the tool. *)
Definition running_line (cmd : string) : string :=
  "Running Bulk Extractor as [" ++ cmd ++ "]".

(** Further sample reports. *)
Module MoreSamples.

Definition with_section (section : Element) : Element :=
  Elem "dfxml" None [ Sample.creator; Sample.report_section; section ].

(** Counts that are signed, padded and grouped. *)
Definition signed_report : Element :=
  with_section
    (Elem "feature_files" None
       [ Sample.feature "removed" "-3"; Sample.feature "added" " 7 ";
         Sample.feature "kept" "1_000" ]).

Definition signed_entries : list Entry :=
  [ nested_entry ("removed", "-3"); nested_entry ("added", " 7 ");
    nested_entry ("kept", "1_000") ].

(** A count element without text, after one good entry. *)
Definition textless_count : Entry :=
  mkEntry (Elem "feature_file" None [ Sample.leaf "name" "url"; Elem "count" None [] ])
          (Sample.leaf "name" "url") (Elem "count" None []).

Definition textless_count_report : Element :=
  with_section
    (Elem "feature_files" None [ Sample.feature "email" "5"; marker textless_count ]).

(** A section whose children are no markers. *)
Definition other_children_report : Element :=
  with_section (Elem "feature_files" None [ Sample.leaf "note" "nothing ran" ]).

(** A report with a program and no version. *)
Definition no_version_report : Element :=
  Elem "dfxml" None
    [ Elem "creator" None
        [ Sample.leaf "program" "BULK_EXTRACTOR";
          Elem "execution_environment" None
            [ Sample.leaf "command_line" "bulk_extractor in -o out";
              Sample.leaf "start_time" "2020-01-01T00:00:00Z" ] ];
      Sample.scanners; Sample.report_section ].

(** A report with no command line. *)
Definition no_command_line_report : Element :=
  Elem "dfxml" None
    [ Elem "creator" None
        [ Sample.leaf "program" "BULK_EXTRACTOR"; Sample.leaf "version" "1.6.0" ];
      Sample.scanners; Sample.report_section ].

Definition metadata : Metadata :=
  mkMetadata (Some "BULK_EXTRACTOR") (Some "1.6.0")
    (Some "bulk_extractor in -o out") (Some "2020-01-01T00:00:00Z") (Some "42").

(** A host on which the tool and the compression go through. *)
Definition quiet_host (fs : FileSystem) : Host :=
  mkHost (fun _ => None) fs (fun _ => None).

End MoreSamples.

(** Unfolds [run] down to the answers of its collaborators. *)
Ltac unfold_run :=
  cbv beta iota zeta delta
    [run attempt bind log_result record_call answer modify ret raise
     call_generate_summary_report set_text_data set_report_data mark_compressed
     close_result result output_evidence calls warnings close_calls local_path
     text_data compressed result_log report_data running_line fst snd].

(** * Properties *)

(** ** The builtins on small inputs *)

Example int_examples :
  int (Some "15") = Returned 15 /\ int (Some " -7 ") = Returned (-7) /\
  int (Some "1_000") = Returned 1000 /\ int (Some "1__0") = Raised (ValueError "1__0") /\
  int (Some "") = Raised (ValueError "") /\ int (Some "5_") = Raised (ValueError "5_") /\
  int (Some "+ 5") = Raised (ValueError "+ 5") /\ int None = Raised TypeError /\
  int (Some "007") = Returned 7 /\ int (Some "4 2") = Raised (ValueError "4 2").
Proof. repeat split; reflexivity. Qed.

Example path_examples :
  Path.join "/out" "report.xml" = "/out/report.xml" /\
  Path.join "/out/" "report.xml" = "/out/report.xml" /\
  Path.join "/out" "/abs" = "/abs" /\
  Path.basename "/data/disk.img" = "disk.img" /\
  Path.basename "disk.img" = "disk.img" /\
  Path.basename "/data/" = "".
Proof. repeat split; reflexivity. Qed.

Example str_int_examples :
  str_int 0 = "0" /\ str_int 15 = "15" /\ str_int (-3) = "-3".
Proof. repeat split; reflexivity. Qed.

(** ** Decimal counts are integer literals *)

Lemma digit_not_special (c : ascii) :
  is_digit c = true ->
  is_space c = false /\ Ascii.eqb c "+"%char = false /\
  Ascii.eqb c "-"%char = false /\ Ascii.eqb c underscore = false.
Proof.
  destruct c as [b0 b1 b2 b3 b4 b5 b6 b7].
  destruct b0, b1, b2, b3, b4, b5, b6, b7; intro H;
    solve [ discriminate H | repeat split; reflexivity ].
Qed.

Lemma read_digits_all_digits (cs : list ascii) :
  forall acc, all_digits cs = true ->
    read_digits acc cs = Some (fold_left (fun a c => 10 * a + digit_value c) cs acc).
Proof.
  induction cs as [| c cs IH]; intros acc H; simpl in *.
  - reflexivity.
  - apply andb_true_iff in H as [Hc Hcs].
    rewrite Hc. apply IH, Hcs.
Qed.

Lemma int_decimal (s : string) :
  is_decimal s = true -> int (Some s) = Returned (decimal_value s).
Proof.
  unfold is_decimal, int, int_of_chars, decimal_value.
  destruct (list_ascii_of_string s) as [| c cs]; [discriminate |].
  intro H. simpl in H. apply andb_true_iff in H as [Hc Hcs].
  destruct (digit_not_special c Hc) as (Hsp & Hplus & Hminus & _).
  simpl. rewrite Hsp, Hplus, Hminus. simpl. rewrite Hc.
  rewrite (read_digits_all_digits cs _ Hcs).
  do 2 f_equal.
Qed.

(** ** Lookups in the tree *)

Lemma hd_error_filter {A : Type} (p : A -> bool) (l : list A) (a : A) :
  hd_error (filter p l) = Some a -> p a = true.
Proof.
  induction l as [| x l IH]; simpl; [discriminate |].
  destruct (p x) eqn:E; simpl; [| exact IH].
  intro H. injection H as <-. exact E.
Qed.

(** An element found under a one-segment path bears that segment as tag. *)
Lemma find_tag (xml e : Element) (t : string) :
  find xml [t] = Some e -> tag e = t.
Proof.
  unfold find, iterfind, select_child. simpl. rewrite app_nil_r.
  intro H. apply hd_error_filter in H. apply String.eqb_eq, H.
Qed.

Lemma iter_no_children (e : Element) : children e = [] -> iter e = [e].
Proof. destruct e as [t x cs]; simpl; intros ->; reflexivity. Qed.

(** ** The scanner loop *)

Section ScanFacts.

Variable bullet : string -> string.

Lemma scan_skip (f : Element) (rest : list Element) (l : Locals) :
  tag f <> "feature_file" -> scan bullet (f :: rest) l = scan bullet rest l.
Proof.
  intro H. simpl. apply String.eqb_neq in H. rewrite H. reflexivity.
Qed.

(** Over well-formed entries the loop appends one bullet per entry and
    adds up the counts, then goes on with what follows them. *)
Lemma scan_entries_then (ts : list Entry) (more : list Element) :
  forall l,
    Forall (fun t => tag (marker t) = "feature_file") ts ->
    Forall decimal_count ts ->
    scan bullet (flat_map elements ts ++ more) l =
      scan bullet more
        (mkLocals (findings l ++ map (entry_line bullet) ts)
                  (features_count l + total ts)).
Proof.
  induction ts as [| t ts IH]; intros l Hm Hd.
  - simpl. rewrite app_nil_r, Z.add_0_r. destruct l; reflexivity.
  - inversion Hm as [| ? ? Ht Hm']; subst. inversion Hd as [| ? ? Hc Hd']; subst.
    destruct Hc as (s & Hs & Hdec).
    cbn [flat_map elements app scan]. rewrite Ht. cbn [String.eqb Ascii.eqb Bool.eqb].
    unfold bind at 1. unfold append at 1, modify at 1.
    unfold bind at 1. unfold eval at 1. rewrite Hs, (int_decimal s Hdec).
    unfold bind at 1. unfold add_features at 1, modify at 1.
    fold (elements t). rewrite IH by assumption. cbn [findings features_count].
    unfold entry_line at 2. cbn [map total fold_right].
    unfold count_value at 1. rewrite Hs.
    rewrite <- app_assoc. cbn [app]. do 2 f_equal.
    fold (total ts). lia.
Qed.

Lemma scan_entries (ts : list Entry) (l : Locals) :
  Forall (fun t => tag (marker t) = "feature_file") ts ->
  Forall decimal_count ts ->
  scan bullet (flat_map elements ts) l =
    (mkLocals (findings l ++ map (entry_line bullet) ts) (features_count l + total ts),
     Returned tt).
Proof.
  intros Hm Hd.
  rewrite <- (app_nil_r (flat_map elements ts)).
  rewrite (scan_entries_then ts [] l Hm Hd). reflexivity.
Qed.

(** After well-formed entries, an entry whose count is no integer literal
    makes the loop raise [ValueError]. *)
Lemma scan_bad_count (ts : list Entry) (t : Entry) (more : list Element)
    (s : string) (l : Locals) :
  Forall (fun t => tag (marker t) = "feature_file") ts ->
  Forall decimal_count ts ->
  tag (marker t) = "feature_file" ->
  text (count t) = Some s ->
  int_of_chars (list_ascii_of_string s) = None ->
  snd (scan bullet (flat_map elements ts ++ elements t ++ more) l) =
    Raised (ValueError s).
Proof.
  intros Hm Hd Ht Hs Hbad.
  rewrite (scan_entries_then ts _ l Hm Hd).
  cbn [elements app scan]. rewrite Ht. cbn [String.eqb Ascii.eqb Bool.eqb].
  unfold bind at 1. unfold append at 1, modify at 1.
  unfold bind at 1. unfold eval at 1. unfold int. rewrite Hs, Hbad.
  reflexivity.
Qed.

(** After well-formed entries, a marker followed by fewer than two
    elements makes the loop raise [StopIteration]. *)
Lemma scan_dangling (ts : list Entry) (last_marker : Element)
    (tail : list Element) (l : Locals) :
  Forall (fun t => tag (marker t) = "feature_file") ts ->
  Forall decimal_count ts ->
  tag last_marker = "feature_file" ->
  (List.length tail < 2)%nat ->
  snd (scan bullet (flat_map elements ts ++ last_marker :: tail) l) =
    Raised StopIteration.
Proof.
  intros Hm Hd Ht Hlen.
  rewrite (scan_entries_then ts _ l Hm Hd).
  cbn [scan]. rewrite Ht. cbn [String.eqb Ascii.eqb Bool.eqb].
  destruct tail as [| a [| b tail]]; [reflexivity | reflexivity |].
  simpl in Hlen. lia.
Qed.

End ScanFacts.

(** ** Layouts of the scanner-results section *)

Lemma nested_section_entries (pairs : list (string * string)) :
  scanner_section (nested_section pairs) (map nested_entry pairs).
Proof.
  split.
  - unfold nested_section. cbn [iter]. f_equal.
    induction pairs as [| p pairs IH]; [reflexivity |].
    cbn [map flat_map]. rewrite IH. reflexivity.
  - apply Forall_forall. intros t Hin.
    apply in_map_iff in Hin as (p & <- & _). reflexivity.
Qed.

Lemma flat_section_entries (pairs : list (string * string)) :
  scanner_section (flat_section pairs) (map flat_entry pairs).
Proof.
  split.
  - unfold flat_section. cbn [iter]. f_equal.
    induction pairs as [| p pairs IH]; [reflexivity |].
    cbn [map flat_map]. rewrite flat_map_app, IH. reflexivity.
  - apply Forall_forall. intros t Hin.
    apply in_map_iff in Hin as (p & <- & _). reflexivity.
Qed.

(** ** Report generation *)

Section ReportFacts.

Variables heading4 heading5 bullet : string -> string.

Local Open Scope block_scope.

(** With all five fields there, the block reaches the scanner results
    with the six lines of the run summary appended. *)
Lemma extract_run_summary (xml : Element) (m : Metadata) (l : Locals) :
  has_metadata xml m ->
  extract heading4 heading5 bullet xml l =
    match find xml ["feature_files"] with
    | Some feature_files =>
        (append (heading5 "Scanner Results") ;; scan bullet (iter feature_files))
    | None => append (heading5 no_findings)
    end (mkLocals (findings l ++ run_summary heading4 heading5 bullet m)
                  (features_count l)).
Proof.
  intros ((p & Hp & Tp) & (v & Hv & Tv) & (c & Hc & Tc) & (s & Hs & Ts) & (e & He & Te)).
  unfold extract. unfold bind at 1 2 3 4 5 6 7 8 9 10 11.
  unfold append at 1 2 3 4 5 6, modify, eval.
  rewrite Hp, Hv, Hc, Hs, He. cbn [text_of findings features_count].
  rewrite Tp, Tv, Tc, Ts, Te.
  repeat rewrite <- app_assoc. reflexivity.
Qed.

(** The block stops at the elapsed time when that field is missing, with
    what was appended before it and no feature counted. *)
Lemma extract_no_elapsed (xml : Element) :
  find xml ["report"; "elapsed_seconds"] = None ->
  exists message,
    extract heading4 heading5 bullet xml (mkLocals [] 0) =
      (mkLocals (before_elapsed heading4 heading5 bullet xml) 0,
       Raised (AttributeError message)) /\
    message = "'NoneType' object has no attribute 'text'".
Proof.
  intro He. eexists. split; [| reflexivity].
  unfold extract, before_elapsed.
  unfold bind at 1 2 3 4 5 6 7 8 9 10 11.
  unfold append at 1 2 3 4 5 6, modify, eval.
  rewrite He. cbn [findings features_count app].
  destruct (find xml ["creator"; "program"]) as [p |]; [| reflexivity].
  destruct (find xml ["creator"; "version"]) as [v |]; [| reflexivity].
  cbn [text_of].
  destruct (find xml ["creator"; "execution_environment"; "command_line"]) as [c |];
    [| reflexivity].
  cbn [text_of].
  destruct (find xml ["creator"; "execution_environment"; "start_time"]) as [s |];
    reflexivity.
Qed.

End ReportFacts.

(** ** The claims about [generate_summary_report] *)

(** C5. For every output directory with no report file at
    [report.xml], [generate_summary_report] returns the pair [(S, S)]
    with [S] the fixed text "Execution successful, but the report is not
    available.", and logs nothing. *)
Theorem no_report_fallback (heading4 heading5 bullet : string -> string)
    (fs : FileSystem) (output_file_path : string) :
  fs (Path.join output_file_path "report.xml") = NoFile ->
  generate_summary_report heading4 heading5 bullet fs output_file_path =
    ([], Returned ("Execution successful, but the report is not available.",
                   "Execution successful, but the report is not available.")).
Proof.
  intro H. unfold generate_summary_report. rewrite H. reflexivity.
Qed.

Lemma no_report_fallback_witness :
  (fun _ : string => NoFile) (Path.join "/out/disk.img" "report.xml") = NoFile /\
  generate_summary_report Sample.heading4 Sample.heading5 Sample.bullet
    (fun _ => NoFile) "/out/disk.img" =
    ([], Returned ("Execution successful, but the report is not available.",
                   "Execution successful, but the report is not available.")).
Proof.
  split; [reflexivity |].
  apply (no_report_fallback Sample.heading4 Sample.heading5 Sample.bullet
           (fun _ => NoFile) "/out/disk.img").
  reflexivity.
Defined.

(** C7. For every output directory whose report file exists but does not
    parse, [generate_summary_report] raises the parser's error to its
    caller: it returns no report and no summary, and logs nothing. *)
Theorem unparseable_report_raises (heading4 heading5 bullet : string -> string)
    (fs : FileSystem) (output_file_path : string) :
  fs (Path.join output_file_path "report.xml") = Malformed ->
  generate_summary_report heading4 heading5 bullet fs output_file_path =
    ([], Raised ParseError) /\
  forall pair,
    snd (generate_summary_report heading4 heading5 bullet fs output_file_path)
      <> Returned pair.
Proof.
  intro H. unfold generate_summary_report. rewrite H.
  split; [reflexivity | intros pair; simpl; discriminate].
Qed.

Lemma unparseable_report_raises_witness :
  generate_summary_report Sample.heading4 Sample.heading5 Sample.bullet
    (Sample.only "/out/disk.img/report.xml" Malformed) "/out/disk.img" =
    ([], Raised ParseError).
Proof.
  apply (unparseable_report_raises Sample.heading4 Sample.heading5 Sample.bullet
           (Sample.only "/out/disk.img/report.xml" Malformed) "/out/disk.img").
  reflexivity.
Defined.

(** C2. For every report with all its metadata whose scanner-results
    section holds the entries [ts], each with a decimal count,
    [generate_summary_report] returns the summary "S artifacts have been
    extracted." with [S] the sum of the counts, and a report that has,
    after the run summary and the scanner-results heading, one
    "name:count" bullet per entry, in order, and nothing else. *)
Theorem count_conservation (heading4 heading5 bullet : string -> string)
    (fs : FileSystem) (output_file_path : string)
    (xml feature_files : Element) (m : Metadata) (ts : list Entry) :
  fs (Path.join output_file_path "report.xml") = Document xml ->
  has_metadata xml m ->
  find xml ["feature_files"] = Some feature_files ->
  scanner_section feature_files ts ->
  Forall decimal_count ts ->
  generate_summary_report heading4 heading5 bullet fs output_file_path =
    ([], Returned
           (join newline
              (run_summary heading4 heading5 bullet m ++
               heading5 "Scanner Results" :: map (entry_line bullet) ts),
            str_int (total ts) ++ " artifacts have been extracted.")) /\
  List.length (map (entry_line bullet) ts) = List.length ts.
Proof.
  intros Hfs Hm Hff [Hiter Hmarkers] Hdec.
  split; [| apply length_map].
  unfold generate_summary_report. rewrite Hfs.
  rewrite (extract_run_summary heading4 heading5 bullet xml m _ Hm), Hff.
  unfold bind, append, modify. rewrite Hiter.
  rewrite scan_skip.
  2:{ rewrite (find_tag _ _ _ Hff). discriminate. }
  rewrite (scan_entries bullet ts _ Hmarkers Hdec).
  cbn [findings features_count app]. unfold render. cbn [findings features_count].
  rewrite <- app_assoc. reflexivity.
Qed.

Lemma count_conservation_witness :
  generate_summary_report Sample.heading4 Sample.heading5 Sample.bullet
    (Sample.only "/out/report.xml" (Document Sample.full_report)) "/out" =
    ([], Returned
           (join newline
              [ "#### Bulk Extractor Results"; "##### Run Summary";
                "* Program: BULK_EXTRACTOR - 1.6.0";
                "* Command Line: bulk_extractor in -o out";
                "* Start Time: 2020-01-01T00:00:00Z";
                "* Elapsed Time: 42";
                "##### Scanner Results"; "* email:5"; "* url:10" ],
            "15 artifacts have been extracted.")).
Proof.
  apply (count_conservation Sample.heading4 Sample.heading5 Sample.bullet
           (Sample.only "/out/report.xml" (Document Sample.full_report)) "/out"
           Sample.full_report Sample.scanners
           (mkMetadata (Some "BULK_EXTRACTOR") (Some "1.6.0")
              (Some "bulk_extractor in -o out") (Some "2020-01-01T00:00:00Z")
              (Some "42"))
           [ mkEntry (Sample.feature "email" "5")
               (Sample.leaf "name" "email") (Sample.leaf "count" "5");
             mkEntry (Sample.feature "url" "10")
               (Sample.leaf "name" "url") (Sample.leaf "count" "10") ]).
  - reflexivity.
  - repeat split; eexists; split; reflexivity.
  - reflexivity.
  - split; [reflexivity | repeat constructor].
  - repeat constructor; eexists; split; reflexivity.
Defined.

(** C3. For every report that parses but has no [elapsed_seconds] field,
    [generate_summary_report] does not raise: it logs one warning and
    returns the findings appended before that field, joined by newlines,
    with the summary of zero artifacts; no elapsed time and no scanner
    result is in the report. When the program, version, command line and
    start time are there, the report is the two headings and their three
    bullets. *)
Theorem missing_elapsed_contained (heading4 heading5 bullet : string -> string)
    (fs : FileSystem) (output_file_path : string) (xml : Element) :
  fs (Path.join output_file_path "report.xml") = Document xml ->
  find xml ["report"; "elapsed_seconds"] = None ->
  generate_summary_report heading4 heading5 bullet fs output_file_path =
    ([ "Error parsing feature from Bulk Extractor report: 'NoneType' object has no attribute 'text'" ],
     Returned (join newline (before_elapsed heading4 heading5 bullet xml),
               "0 artifacts have been extracted.")) /\
  forall p v c s,
    field xml ["creator"; "program"] p ->
    field xml ["creator"; "version"] v ->
    field xml ["creator"; "execution_environment"; "command_line"] c ->
    field xml ["creator"; "execution_environment"; "start_time"] s ->
    before_elapsed heading4 heading5 bullet xml =
      [ heading4 "Bulk Extractor Results";
        heading5 "Run Summary";
        bullet ("Program: " ++ str_text p ++ " - " ++ str_text v);
        bullet ("Command Line: " ++ str_text c);
        bullet ("Start Time: " ++ str_text s) ].
Proof.
  intros Hfs He. split.
  - unfold generate_summary_report. rewrite Hfs.
    destruct (extract_no_elapsed heading4 heading5 bullet xml He) as (msg & -> & ->).
    reflexivity.
  - intros p v c s (ep & Hp & <-) (ev & Hv & <-) (ec & Hc & <-) (es & Hs & <-).
    unfold before_elapsed. rewrite Hp, Hv, Hc, Hs. reflexivity.
Qed.

Lemma missing_elapsed_contained_witness :
  generate_summary_report Sample.heading4 Sample.heading5 Sample.bullet
    (Sample.only "/out/report.xml" (Document Sample.no_elapsed_report)) "/out" =
    ([ "Error parsing feature from Bulk Extractor report: 'NoneType' object has no attribute 'text'" ],
     Returned (join newline
                 [ "#### Bulk Extractor Results"; "##### Run Summary";
                   "* Program: BULK_EXTRACTOR - 1.6.0";
                   "* Command Line: bulk_extractor in -o out";
                   "* Start Time: 2020-01-01T00:00:00Z" ],
               "0 artifacts have been extracted.")).
Proof.
  apply (missing_elapsed_contained Sample.heading4 Sample.heading5 Sample.bullet
           (Sample.only "/out/report.xml" (Document Sample.no_elapsed_report)) "/out"
           Sample.no_elapsed_report).
  - reflexivity.
  - reflexivity.
Defined.

(** C6, as the claim has it, fails on a report whose scanner-results
    section is there but empty: the report then carries the
    scanner-results heading and the "no findings" text occurs nowhere in
    it. *)
Lemma empty_section_has_no_findings_line :
  exists report,
    generate_summary_report Sample.heading4 Sample.heading5 Sample.bullet
      (Sample.only "/out/report.xml" (Document Sample.empty_scanners_report)) "/out" =
      ([], Returned (report, "0 artifacts have been extracted.")) /\
    occurs "There are no findings to report." report = false /\
    occurs "Scanner Results" report = true.
Proof.
  eexists. split; [reflexivity |]. split; reflexivity.
Qed.

(** C6, amended. For every report with all its metadata, the summary is
    "0 artifacts have been extracted." when the scanner-results section is
    absent and when it is there without children. When it is absent the
    report ends with the "no findings" line; when it is there and empty
    the report ends with the scanner-results heading and has no bullet
    after it. *)
Theorem no_scanners (heading4 heading5 bullet : string -> string)
    (fs : FileSystem) (output_file_path : string) (xml : Element) (m : Metadata) :
  fs (Path.join output_file_path "report.xml") = Document xml ->
  has_metadata xml m ->
  (find xml ["feature_files"] = None ->
   generate_summary_report heading4 heading5 bullet fs output_file_path =
     ([], Returned
            (join newline
               (run_summary heading4 heading5 bullet m ++
                [ heading5 "There are no findings to report." ]),
             "0 artifacts have been extracted."))) /\
  (forall feature_files,
     find xml ["feature_files"] = Some feature_files ->
     children feature_files = [] ->
     generate_summary_report heading4 heading5 bullet fs output_file_path =
       ([], Returned
              (join newline
                 (run_summary heading4 heading5 bullet m ++
                  [ heading5 "Scanner Results" ]),
               "0 artifacts have been extracted."))).
Proof.
  intros Hfs Hm. split.
  - intro Hff. unfold generate_summary_report. rewrite Hfs.
    rewrite (extract_run_summary heading4 heading5 bullet xml m _ Hm), Hff.
    reflexivity.
  - intros feature_files Hff Hempty.
    unfold generate_summary_report. rewrite Hfs.
    rewrite (extract_run_summary heading4 heading5 bullet xml m _ Hm), Hff.
    unfold bind, append, modify. rewrite (iter_no_children _ Hempty).
    rewrite scan_skip.
    2:{ rewrite (find_tag _ _ _ Hff). discriminate. }
    reflexivity.
Qed.

Lemma no_scanners_witness :
  generate_summary_report Sample.heading4 Sample.heading5 Sample.bullet
    (Sample.only "/out/report.xml" (Document Sample.no_scanners_report)) "/out" =
    ([], Returned
           (join newline
              [ "#### Bulk Extractor Results"; "##### Run Summary";
                "* Program: BULK_EXTRACTOR - 1.6.0";
                "* Command Line: bulk_extractor in -o out";
                "* Start Time: 2020-01-01T00:00:00Z";
                "* Elapsed Time: 42";
                "##### There are no findings to report." ],
            "0 artifacts have been extracted.")) /\
  generate_summary_report Sample.heading4 Sample.heading5 Sample.bullet
    (Sample.only "/out/report.xml" (Document Sample.empty_scanners_report)) "/out" =
    ([], Returned
           (join newline
              [ "#### Bulk Extractor Results"; "##### Run Summary";
                "* Program: BULK_EXTRACTOR - 1.6.0";
                "* Command Line: bulk_extractor in -o out";
                "* Start Time: 2020-01-01T00:00:00Z";
                "* Elapsed Time: 42";
                "##### Scanner Results" ],
            "0 artifacts have been extracted.")).
Proof.
  pose (m := mkMetadata (Some "BULK_EXTRACTOR") (Some "1.6.0")
               (Some "bulk_extractor in -o out") (Some "2020-01-01T00:00:00Z")
               (Some "42")).
  split.
  - refine (proj1 (no_scanners Sample.heading4 Sample.heading5 Sample.bullet
                     (Sample.only "/out/report.xml" (Document Sample.no_scanners_report))
                     "/out" Sample.no_scanners_report m _ _) _).
    + reflexivity.
    + repeat split; eexists; split; reflexivity.
    + reflexivity.
  - refine (proj2 (no_scanners Sample.heading4 Sample.heading5 Sample.bullet
                     (Sample.only "/out/report.xml" (Document Sample.empty_scanners_report))
                     "/out" Sample.empty_scanners_report m _ _)
                  (Elem "feature_files" None []) _ _).
    + reflexivity.
    + repeat split; eexists; split; reflexivity.
    + reflexivity.
    + reflexivity.
Defined.

(** C9. There is a report, with a scanner-results section holding a
    (name, count) pair whose count is not a decimal number, on which
    [generate_summary_report] raises the conversion error of [int]: the
    handler of the [try] statement takes attribute errors only, so nothing
    is returned and nothing is logged. *)
Theorem bad_count_raises (heading4 heading5 bullet : string -> string) :
  exists xml feature_files t s,
    find xml ["feature_files"] = Some feature_files /\
    scanner_section feature_files [t] /\
    text (count t) = Some s /\ is_decimal s = false /\
    generate_summary_report heading4 heading5 bullet
      (fun _ => Document xml) "/out" = ([], Raised (ValueError s)).
Proof.
  exists Sample.bad_count_report,
         (Elem "feature_files" None [ Sample.feature "email" "many" ]),
         (mkEntry (Sample.feature "email" "many")
            (Sample.leaf "name" "email") (Sample.leaf "count" "many")),
         "many".
  split; [reflexivity |].
  split; [split; [reflexivity | repeat constructor] |].
  repeat split; reflexivity.
Qed.

(** C10. There is a report whose scanner-results section ends with a
    marker that is not followed by both a name and a count, on which
    [generate_summary_report] raises: reading the next two items of the
    iterator runs off its end, and [StopIteration] is not handled. *)
Theorem dangling_marker_raises (heading4 heading5 bullet : string -> string) :
  exists xml feature_files t last_marker last_name,
    find xml ["feature_files"] = Some feature_files /\
    iter feature_files = feature_files :: elements t ++ [last_marker; last_name] /\
    tag last_marker = "feature_file" /\
    generate_summary_report heading4 heading5 bullet
      (fun _ => Document xml) "/out" = ([], Raised StopIteration).
Proof.
  exists Sample.dangling_report,
         (Elem "feature_files" None
            [ Sample.feature "email" "5";
              Elem "feature_file" None [ Sample.leaf "name" "url" ] ]),
         (mkEntry (Sample.feature "email" "5")
            (Sample.leaf "name" "email") (Sample.leaf "count" "5")),
         (Elem "feature_file" None [ Sample.leaf "name" "url" ]),
         (Sample.leaf "name" "url").
  repeat split; reflexivity.
Qed.

(** ** The claims about [run] *)

Section RunFacts.

Variables heading4 heading5 bullet : string -> string.

(** Nothing in the body of the [try] statement closes the result before
    its last statement: when the body raises, the result is as open as it
    was; when it completes, it has closed the result once, as a success. *)
Lemma attempt_closes (host : Host) (evidence_local_path output_file_path : string)
    (s : TaskState) :
  match attempt heading4 heading5 bullet host evidence_local_path output_file_path s with
  | (s', Returned _) =>
      exists summary,
        close_calls (result s') = (close_calls (result s) ++ [(true, summary)])%list
  | (s', Raised _) => close_calls (result s') = close_calls (result s)
  end.
Proof.
  destruct s as [[lines data closes] [path text_data0 packed] made logged0].
  cbv beta iota zeta delta
    [attempt bind log_result record_call answer modify ret raise
     call_generate_summary_report set_text_data set_report_data mark_compressed
     close_result result output_evidence calls warnings close_calls local_path].
  destruct (execute host (command evidence_local_path output_file_path)) as [e |];
    cbv beta iota; [reflexivity |].
  destruct (generate_summary_report heading4 heading5 bullet (files host) output_file_path)
    as [logged [[report summary] | e]]; cbv beta iota; [| reflexivity].
  destruct (compress host path) as [e |]; cbv beta iota; [reflexivity |].
  exists summary. reflexivity.
Qed.

End RunFacts.

(** C1, as the claim has it, fails when the report file does not parse:
    the parser's error is no task-level exception, [run] lets it through,
    and the result has not been closed. *)
Lemma unparseable_report_leaves_result_open :
  let host := mkHost (fun _ => None)
                (Sample.only "/out/disk.img/report.xml" Malformed)
                (fun _ => None) in
  let outcome := run Sample.heading4 Sample.heading5 Sample.bullet
                   host "/out" "/data/disk.img" Sample.fresh_result in
  snd outcome = Raised ParseError /\
  close_calls (result (fst outcome)) = [] /\
  List.length (close_calls (result (fst outcome))) <> 1%nat.
Proof.
  repeat split; try reflexivity. simpl. discriminate.
Qed.

(** C1, amended. On every path on which [run] returns, it returns the
    result it was given, closed exactly once more than before: with
    [success = True] and the summary as status when the tool, the report
    and the compression all went through; with [success = False] and the
    exception's message as status when the first of them to raise raised a
    task-level exception. When the first to raise raised anything else,
    [run] raises that exception and has not closed the result. *)
Theorem run_closes_once_when_it_returns (heading4 heading5 bullet : string -> string)
    (host : Host) (output_dir evidence_local_path : string)
    (result0 : TurbiniaTaskResult) :
  let output_file_path := Path.join output_dir (Path.basename evidence_local_path) in
  let cmd := command evidence_local_path output_file_path in
  let outcome := run heading4 heading5 bullet host output_dir evidence_local_path result0 in
  match execute host cmd with
  | Some exception => after_exception (close_calls result0) outcome exception
  | None =>
      match snd (generate_summary_report heading4 heading5 bullet
                   (files host) output_file_path) with
      | Raised exception => after_exception (close_calls result0) outcome exception
      | Returned (_, summary) =>
          match compress host (Some output_file_path) with
          | Some exception => after_exception (close_calls result0) outcome exception
          | None =>
              snd outcome = Returned (result (fst outcome)) /\
              close_calls (result (fst outcome)) =
                (close_calls result0 ++ [(true, summary)])%list
          end
      end
  end.
Proof.
  intros output_file_path cmd outcome. subst outcome.
  unfold after_exception. unfold_run. fold output_file_path. fold cmd.
  destruct (execute host cmd) as [e |]; cbv beta iota.
  { destruct e; split; reflexivity. }
  destruct (generate_summary_report heading4 heading5 bullet (files host) output_file_path)
    as [logged [[report summary] | e]]; cbv beta iota.
  2:{ destruct e; split; reflexivity. }
  destruct (compress host (Some output_file_path)) as [e |]; cbv beta iota.
  { destruct e; split; reflexivity. }
  split; reflexivity.
Qed.

(** C4. Whenever the invocation of the tool raises a task-level
    exception, [run] makes no call to [generate_summary_report], closes
    the result once, with [success = False] and the exception's message as
    status, and returns that result. *)
Theorem execution_failure_isolated (heading4 heading5 bullet : string -> string)
    (host : Host) (output_dir evidence_local_path message : string)
    (result0 : TurbiniaTaskResult) :
  let output_file_path := Path.join output_dir (Path.basename evidence_local_path) in
  let cmd := command evidence_local_path output_file_path in
  let outcome := run heading4 heading5 bullet host output_dir evidence_local_path result0 in
  execute host cmd = Some (TurbiniaException message) ->
  snd outcome = Returned (result (fst outcome)) /\
  close_calls (result (fst outcome)) =
    (close_calls result0 ++ [(false, message)])%list /\
  calls (fst outcome) = [CallExecute cmd] /\
  (forall path, ~ In (CallGenerateSummaryReport path) (calls (fst outcome))) /\
  report_data (result (fst outcome)) = report_data result0.
Proof.
  intros output_file_path cmd outcome H. subst outcome.
  unfold run, attempt. fold output_file_path. fold cmd.
  unfold bind, log_result, record_call, answer, modify, raise.
  rewrite H. cbn.
  repeat split.
  intros path [Hin | []]. discriminate Hin.
Qed.

Lemma execution_failure_isolated_witness :
  let host := mkHost (fun _ => Some (TurbiniaException "Execution failed"))
                (Sample.only "/out/disk.img/report.xml" (Document Sample.full_report))
                (fun _ => None) in
  let outcome := run Sample.heading4 Sample.heading5 Sample.bullet
                   host "/out" "/data/disk.img" Sample.fresh_result in
  close_calls (result (fst outcome)) = [(false, "Execution failed")] /\
  calls (fst outcome) =
    [CallExecute "bulk_extractor /data/disk.img -o /out/disk.img"].
Proof.
  intros host outcome.
  destruct (execution_failure_isolated Sample.heading4 Sample.heading5 Sample.bullet
              host "/out" "/data/disk.img" "Execution failed" Sample.fresh_result
              eq_refl) as (_ & Hclose & Hcalls & _).
  split; [exact Hclose | exact Hcalls].
Defined.

(** * Further properties of the report parser *)

Section ScannerLoop.

Variable bullet : string -> string.

(** Over entries whose counts [int] can read, the loop appends one bullet
    per entry and adds what [int] reads, then goes on. *)
Lemma scan_literals_then (ts : list Entry) (more : list Element) :
  forall l,
    Forall (fun t => tag (marker t) = "feature_file") ts ->
    Forall integer_count ts ->
    scan bullet (flat_map elements ts ++ more) l =
      scan bullet more
        (mkLocals (findings l ++ map (entry_line bullet) ts)
                  (features_count l + literal_total ts)).
Proof.
  induction ts as [| t ts IH]; intros l Hm Hd.
  - simpl. rewrite app_nil_r, Z.add_0_r. destruct l; reflexivity.
  - inversion Hm as [| ? ? Ht Hm']; subst. inversion Hd as [| ? ? Hc Hd']; subst.
    destruct Hc as (n & Hn).
    cbn [flat_map elements app scan]. rewrite Ht. cbn [String.eqb Ascii.eqb Bool.eqb].
    unfold bind at 1. unfold append at 1, modify at 1.
    unfold bind at 1. unfold eval at 1. rewrite Hn.
    unfold bind at 1. unfold add_features at 1, modify at 1.
    fold (elements t). rewrite IH by assumption. cbn [findings features_count].
    unfold entry_line at 2. cbn [map literal_total fold_right].
    unfold literal_value at 1. rewrite Hn.
    rewrite <- app_assoc. cbn [app]. do 2 f_equal.
    fold (literal_total ts). lia.
Qed.

(** Elements that are no markers leave the findings and the count alone. *)
Lemma scan_no_markers (its : list Element) (l : Locals) :
  Forall (fun e => tag e <> "feature_file") its ->
  scan bullet its l = (l, Returned tt).
Proof.
  induction 1 as [| e its He _ IH]; [reflexivity |].
  rewrite scan_skip by exact He. exact IH.
Qed.

(** Whatever the loop is given, it ends or raises one of its three
    exceptions. *)
Lemma scan_raises_bounded (n : nat) :
  forall its l l' e,
    (List.length its <= n)%nat ->
    scan bullet its l = (l', Raised e) ->
    from_scanner_loop e = true.
Proof.
  induction n as [| n IH]; intros its l l' e Hlen H.
  - destruct its; [discriminate H | simpl in Hlen; lia].
  - destruct its as [| f rest]; [discriminate H |].
    simpl in Hlen. cbn [scan] in H.
    destruct (String.eqb (tag f) "feature_file").
    + destruct rest as [| a [| b rest']].
      * injection H as _ <-. reflexivity.
      * injection H as _ <-. reflexivity.
      * unfold bind at 1 in H. unfold append at 1, modify at 1 in H.
        unfold bind at 1, eval at 1 in H.
        unfold int in H.
        destruct (text b) as [s |].
        -- destruct (int_of_chars (list_ascii_of_string s)).
           ++ unfold bind at 1, add_features at 1, modify at 1 in H.
              eapply (IH rest'); [simpl in Hlen; lia | exact H].
           ++ injection H as _ <-. reflexivity.
        -- injection H as _ <-. reflexivity.
    + eapply (IH rest); [lia | exact H].
Qed.

Lemma scan_raises (its : list Element) (l l' : Locals) (e : Exn) :
  scan bullet its l = (l', Raised e) -> from_scanner_loop e = true.
Proof. apply (scan_raises_bounded (List.length its)). lia. Qed.

End ScannerLoop.

Section ParserFacts.

Variables heading4 heading5 bullet : string -> string.

Local Open Scope block_scope.

(** A report with none of its five fields missing has its metadata. *)
Lemma metadata_of_complete (xml : Element) :
  missing_field xml = false -> exists m, has_metadata xml m.
Proof.
  unfold missing_field, is_missing, has_metadata, field. intro H.
  destruct (find xml ["creator"; "program"]) as [p |]; [| discriminate H].
  destruct (find xml ["creator"; "version"]) as [v |]; [| discriminate H].
  destruct (find xml ["creator"; "execution_environment"; "command_line"])
    as [c |]; [| discriminate H].
  destruct (find xml ["creator"; "execution_environment"; "start_time"])
    as [s |]; [| discriminate H].
  destruct (find xml ["report"; "elapsed_seconds"]) as [e |]; [| discriminate H].
  exists (mkMetadata (text p) (text v) (text c) (text s) (text e)).
  repeat split; eexists; split; reflexivity.
Qed.

(** With a field missing, the block raises the attribute error before it
    looks at the scanner results: nothing is counted, and the two headings
    and at most three bullets have been appended. *)
Lemma extract_missing_field (xml : Element) :
  missing_field xml = true ->
  exists lines,
    extract heading4 heading5 bullet xml (mkLocals [] 0) =
      (mkLocals lines 0,
       Raised (AttributeError "'NoneType' object has no attribute 'text'")) /\
    firstn 2 lines = [heading4 "Bulk Extractor Results"; heading5 "Run Summary"] /\
    (List.length lines <= 5)%nat.
Proof.
  unfold missing_field, is_missing. intro H.
  unfold extract.
  unfold bind at 1 2 3 4 5 6 7 8 9 10 11.
  unfold append at 1 2 3 4 5 6, modify, eval.
  cbn [findings features_count app].
  destruct (find xml ["creator"; "program"]) as [p |];
    [| eexists; repeat split; simpl; lia].
  destruct (find xml ["creator"; "version"]) as [v |];
    [| eexists; repeat split; simpl; lia].
  cbn [text_of].
  destruct (find xml ["creator"; "execution_environment"; "command_line"])
    as [c |]; [| eexists; repeat split; simpl; lia].
  cbn [text_of].
  destruct (find xml ["creator"; "execution_environment"; "start_time"])
    as [s |]; [| eexists; repeat split; simpl; lia].
  cbn [text_of].
  destruct (find xml ["report"; "elapsed_seconds"]) as [e |];
    [discriminate H | eexists; repeat split; simpl; lia].
Qed.

(** With no field missing, the block does not raise the attribute error. *)
Lemma extract_complete_raises (xml : Element) (l l' : Locals) (e : Exn) :
  missing_field xml = false ->
  extract heading4 heading5 bullet xml l = (l', Raised e) ->
  from_scanner_loop e = true.
Proof.
  intros Hc H.
  destruct (metadata_of_complete xml Hc) as [m Hm].
  rewrite (extract_run_summary heading4 heading5 bullet xml m l Hm) in H.
  destruct (find xml ["feature_files"]) as [ff |].
  - unfold bind, append, modify in H. apply scan_raises in H. exact H.
  - discriminate H.
Qed.

End ParserFacts.

(** What leaves the call when it raises, by what is at the report's
    path. *)
Lemma report_raises (heading4 heading5 bullet : string -> string)
    (fs : FileSystem) (output_file_path : string)
    (logged : list string) (e : Exn) :
  generate_summary_report heading4 heading5 bullet fs output_file_path =
    (logged, Raised e) ->
  logged = [] /\
  match fs (Path.join output_file_path "report.xml") with
  | NoFile => False
  | Unreadable => e = OSError
  | Malformed => e = ParseError
  | Document _ => from_scanner_loop e = true
  end.
Proof.
  unfold generate_summary_report.
  destruct (fs (Path.join output_file_path "report.xml")) as [| | | xml].
  - discriminate.
  - intro H. injection H as <- <-. split; reflexivity.
  - intro H. injection H as <- <-. split; reflexivity.
  - destruct (missing_field xml) eqn:Hmiss.
    + destruct (extract_missing_field heading4 heading5 bullet xml Hmiss)
        as (lines & -> & _). discriminate.
    + destruct (extract heading4 heading5 bullet xml (mkLocals [] 0))
        as [l [u | e']] eqn:Hx; [discriminate |].
      pose proof (extract_complete_raises heading4 heading5 bullet xml _ _ _ Hmiss Hx)
        as He'.
      destruct e'; try discriminate He'; intro H; injection H as <- <-;
        (split; reflexivity).
Qed.

(** In particular it never raises a task-level exception. *)
Lemma report_raises_no_task_exception (heading4 heading5 bullet : string -> string)
    (fs : FileSystem) (output_file_path : string)
    (logged : list string) (e : Exn) :
  generate_summary_report heading4 heading5 bullet fs output_file_path =
    (logged, Raised e) ->
  is_TurbiniaException e = false.
Proof.
  intro H. destruct (report_raises _ _ _ _ _ _ _ H) as [_ He].
  destruct (fs (Path.join output_file_path "report.xml")).
  - contradiction.
  - subst e. reflexivity.
  - subst e. reflexivity.
  - destruct e; try discriminate He; reflexivity.
Qed.


(** ** What the parser returns, raises and logs *)



(** X2. On a report that parses, a warning is logged exactly when one of
    the five metadata fields is missing. In that case the call returns,
    logs that one warning and counts nothing, whatever the scanner-results
    section holds: the summary is "0 artifacts have been extracted.". *)
Theorem warning_iff_missing_field (heading4 heading5 bullet : string -> string)
    (fs : FileSystem) (output_file_path : string) (xml : Element) :
  fs (Path.join output_file_path "report.xml") = Document xml ->
  (missing_field xml = true ->
   exists report,
     generate_summary_report heading4 heading5 bullet fs output_file_path =
       ([ "Error parsing feature from Bulk Extractor report: 'NoneType' object has no attribute 'text'" ],
        Returned (report, "0 artifacts have been extracted."))) /\
  (missing_field xml = false ->
   fst (generate_summary_report heading4 heading5 bullet fs output_file_path) = []).
Proof.
  intro Hfs. unfold generate_summary_report. rewrite Hfs. split; intro Hmiss.
  - destruct (extract_missing_field heading4 heading5 bullet xml Hmiss)
      as (lines & -> & _).
    eexists. reflexivity.
  - destruct (extract heading4 heading5 bullet xml (mkLocals [] 0))
      as [l [u | e]] eqn:Hx; [reflexivity |].
    pose proof (extract_complete_raises heading4 heading5 bullet xml _ _ _ Hmiss Hx)
      as He.
    destruct e; try discriminate He; reflexivity.
Qed.

Lemma warning_iff_missing_field_witness :
  exists report,
    generate_summary_report Sample.heading4 Sample.heading5 Sample.bullet
      (fun _ => Document MoreSamples.no_version_report) "/out" =
      ([ "Error parsing feature from Bulk Extractor report: 'NoneType' object has no attribute 'text'" ],
       Returned (report, "0 artifacts have been extracted.")).
Proof.
  apply (proj1 (warning_iff_missing_field Sample.heading4 Sample.heading5 Sample.bullet
                  (fun _ => Document MoreSamples.no_version_report) "/out"
                  MoreSamples.no_version_report eq_refl)).
  reflexivity.
Defined.

(** X3. The report stops at the first missing field. Without a program
    or without a version it is the two headings alone: the program bullet
    needs both. With those two and no command line it is the headings and
    the program bullet; with no start time, the command line bullet as
    well. *)
Theorem stops_at_first_missing_field (heading4 heading5 bullet : string -> string)
    (fs : FileSystem) (output_file_path : string) (xml : Element) :
  fs (Path.join output_file_path "report.xml") = Document xml ->
  (find xml ["creator"; "program"] = None \/ find xml ["creator"; "version"] = None ->
   snd (generate_summary_report heading4 heading5 bullet fs output_file_path) =
     Returned
       (join newline [ heading4 "Bulk Extractor Results"; heading5 "Run Summary" ],
        "0 artifacts have been extracted.")) /\
  (forall p v,
     field xml ["creator"; "program"] p ->
     field xml ["creator"; "version"] v ->
     find xml ["creator"; "execution_environment"; "command_line"] = None ->
     snd (generate_summary_report heading4 heading5 bullet fs output_file_path) =
       Returned
         (join newline
            [ heading4 "Bulk Extractor Results"; heading5 "Run Summary";
              bullet ("Program: " ++ str_text p ++ " - " ++ str_text v) ],
          "0 artifacts have been extracted.")) /\
  (forall p v c,
     field xml ["creator"; "program"] p ->
     field xml ["creator"; "version"] v ->
     field xml ["creator"; "execution_environment"; "command_line"] c ->
     find xml ["creator"; "execution_environment"; "start_time"] = None ->
     snd (generate_summary_report heading4 heading5 bullet fs output_file_path) =
       Returned
         (join newline
            [ heading4 "Bulk Extractor Results"; heading5 "Run Summary";
              bullet ("Program: " ++ str_text p ++ " - " ++ str_text v);
              bullet ("Command Line: " ++ str_text c) ],
          "0 artifacts have been extracted.")).
Proof.
  intro Hfs. unfold generate_summary_report. rewrite Hfs.
  unfold extract.
  unfold bind at 1 2 3 4 5 6 7 8 9 10 11.
  unfold append at 1 2 3 4 5 6, modify, eval.
  cbn [findings features_count app].
  split; [| split].
  - intros [H | H]; rewrite H; [reflexivity |].
    destruct (find xml ["creator"; "program"]); reflexivity.
  - intros p v (ep & Hp & <-) (ev & Hv & <-) Hc. rewrite Hp, Hv, Hc. reflexivity.
  - intros p v c (ep & Hp & <-) (ev & Hv & <-) (ec & Hc & <-) Hs.
    rewrite Hp, Hv, Hc, Hs. reflexivity.
Qed.

Lemma stops_at_first_missing_field_witness :
  snd (generate_summary_report Sample.heading4 Sample.heading5 Sample.bullet
         (fun _ => Document MoreSamples.no_version_report) "/out") =
    Returned ("#### Bulk Extractor Results" ++ newline ++ "##### Run Summary",
              "0 artifacts have been extracted.") /\
  snd (generate_summary_report Sample.heading4 Sample.heading5 Sample.bullet
         (fun _ => Document MoreSamples.no_command_line_report) "/out") =
    Returned
      (join newline
         [ "#### Bulk Extractor Results"; "##### Run Summary";
           "* Program: BULK_EXTRACTOR - 1.6.0" ],
       "0 artifacts have been extracted.").
Proof.
  split.
  - apply (proj1 (stops_at_first_missing_field
                    Sample.heading4 Sample.heading5 Sample.bullet
                    (fun _ => Document MoreSamples.no_version_report) "/out"
                    MoreSamples.no_version_report eq_refl)).
    right. reflexivity.
  - apply (proj1 (proj2 (stops_at_first_missing_field
                    Sample.heading4 Sample.heading5 Sample.bullet
                    (fun _ => Document MoreSamples.no_command_line_report) "/out"
                    MoreSamples.no_command_line_report eq_refl))
             (Some "BULK_EXTRACTOR") (Some "1.6.0")).
    + eexists. split; reflexivity.
    + eexists. split; reflexivity.
    + reflexivity.
Defined.

(** ** The scanner results, entry by entry *)

Section SectionFacts.

Variables heading4 heading5 bullet : string -> string.

(** For a report with its metadata and a scanner-results section, the
    call is the loop over the section's descendants, run after the run
    summary and the heading. *)
Lemma report_of_section (fs : FileSystem) (output_file_path : string)
    (xml feature_files : Element) (m : Metadata) :
  fs (Path.join output_file_path "report.xml") = Document xml ->
  has_metadata xml m ->
  find xml ["feature_files"] = Some feature_files ->
  generate_summary_report heading4 heading5 bullet fs output_file_path =
    match scan bullet (tl (iter feature_files))
            (mkLocals (run_summary heading4 heading5 bullet m ++
                       [heading5 "Scanner Results"]) 0) with
    | (l, Returned _) => ([], Returned (render l))
    | (l, Raised (AttributeError message)) =>
        ([warning_of message], Returned (render l))
    | (_, Raised exception) => ([], Raised exception)
    end.
Proof.
  intros Hfs Hm Hff. unfold generate_summary_report. rewrite Hfs.
  rewrite (extract_run_summary heading4 heading5 bullet xml m _ Hm), Hff.
  unfold bind, append, modify.
  destruct feature_files as [t x cs]. cbn [iter tl].
  rewrite scan_skip.
  2:{ apply find_tag in Hff. cbn [tag] in *. rewrite Hff. discriminate. }
  reflexivity.
Qed.

End SectionFacts.

(** X4. The summary adds what [int] reads in each count, and [int] reads
    signed, padded and grouped literals: for a report with its metadata
    whose section holds entries with such counts, the summary is their
    sum, which a negative count lowers, and the report has one bullet per
    entry, which the bullet formatter makes of the name, a colon and the
    count as written. *)
Theorem integer_counts_summed (heading4 heading5 bullet : string -> string)
    (fs : FileSystem) (output_file_path : string)
    (xml feature_files : Element) (m : Metadata) (ts : list Entry) :
  fs (Path.join output_file_path "report.xml") = Document xml ->
  has_metadata xml m ->
  find xml ["feature_files"] = Some feature_files ->
  scanner_section feature_files ts ->
  Forall integer_count ts ->
  generate_summary_report heading4 heading5 bullet fs output_file_path =
    ([], Returned
           (join newline
              (run_summary heading4 heading5 bullet m ++
               heading5 "Scanner Results" :: map (entry_line bullet) ts),
            str_int (literal_total ts) ++ " artifacts have been extracted.")).
Proof.
  intros Hfs Hm Hff [Hiter Hmarkers] Hint.
  rewrite (report_of_section heading4 heading5 bullet fs output_file_path
             xml feature_files m Hfs Hm Hff).
  rewrite Hiter. cbn [tl].
  rewrite <- (app_nil_r (flat_map elements ts)).
  rewrite (scan_literals_then bullet ts [] _ Hmarkers Hint).
  cbn [scan findings features_count]. unfold render. cbn [findings features_count].
  rewrite <- app_assoc. reflexivity.
Qed.

Lemma integer_counts_summed_witness :
  generate_summary_report Sample.heading4 Sample.heading5 Sample.bullet
    (fun _ => Document MoreSamples.signed_report) "/out" =
    ([], Returned
           (join newline
              [ "#### Bulk Extractor Results"; "##### Run Summary";
                "* Program: BULK_EXTRACTOR - 1.6.0";
                "* Command Line: bulk_extractor in -o out";
                "* Start Time: 2020-01-01T00:00:00Z";
                "* Elapsed Time: 42";
                "##### Scanner Results";
                "* removed:-3"; "* added: 7"; "* kept:1_000" ],
            "1004 artifacts have been extracted.")).
Proof.
  apply (integer_counts_summed Sample.heading4 Sample.heading5 Sample.bullet
           (fun _ => Document MoreSamples.signed_report) "/out"
           MoreSamples.signed_report
           (Elem "feature_files" None
              [ Sample.feature "removed" "-3"; Sample.feature "added" " 7 ";
                Sample.feature "kept" "1_000" ])
           MoreSamples.metadata MoreSamples.signed_entries).
  - reflexivity.
  - repeat split; eexists; split; reflexivity.
  - reflexivity.
  - split; [reflexivity | repeat constructor].
  - repeat constructor; eexists; reflexivity.
Defined.

(** X5. The first count [int] cannot read ends the call with [int]'s
    exception: [ValueError] for a text that is no literal, [TypeError] for
    a count element without text. Nothing is returned and nothing is
    logged, however many entries were read before it and whatever follows
    it. *)
Theorem unreadable_count_raises (heading4 heading5 bullet : string -> string)
    (fs : FileSystem) (output_file_path : string)
    (xml feature_files : Element) (m : Metadata)
    (ts : list Entry) (t : Entry) (more : list Element) (e : Exn) :
  fs (Path.join output_file_path "report.xml") = Document xml ->
  has_metadata xml m ->
  find xml ["feature_files"] = Some feature_files ->
  iter feature_files = feature_files :: flat_map elements ts ++ elements t ++ more ->
  Forall (fun t => tag (marker t) = "feature_file") ts ->
  Forall integer_count ts ->
  tag (marker t) = "feature_file" ->
  int (text (count t)) = Raised e ->
  generate_summary_report heading4 heading5 bullet fs output_file_path =
    ([], Raised e) /\
  (e = TypeError \/ exists s, text (count t) = Some s /\ e = ValueError s).
Proof.
  intros Hfs Hm Hff Hiter Hmarkers Hint Ht He.
  assert (Hcases : e = TypeError \/ exists s, text (count t) = Some s /\ e = ValueError s).
  { unfold int in He. destruct (text (count t)) as [s |].
    - destruct (int_of_chars (list_ascii_of_string s)); [discriminate He |].
      injection He as <-. right. exists s. split; reflexivity.
    - injection He as <-. left. reflexivity. }
  split; [| exact Hcases].
  rewrite (report_of_section heading4 heading5 bullet fs output_file_path
             xml feature_files m Hfs Hm Hff).
  rewrite Hiter. cbn [tl].
  rewrite (scan_literals_then bullet ts _ _ Hmarkers Hint).
  cbn [elements app scan]. rewrite Ht. cbn [String.eqb Ascii.eqb Bool.eqb].
  unfold bind at 1. unfold append at 1, modify at 1.
  unfold bind at 1. unfold eval at 1. rewrite He.
  destruct Hcases as [-> | (s & _ & ->)]; reflexivity.
Qed.

Lemma unreadable_count_raises_witness :
  generate_summary_report Sample.heading4 Sample.heading5 Sample.bullet
    (fun _ => Document MoreSamples.textless_count_report) "/out" =
    ([], Raised TypeError).
Proof.
  apply (unreadable_count_raises Sample.heading4 Sample.heading5 Sample.bullet
           (fun _ => Document MoreSamples.textless_count_report) "/out"
           MoreSamples.textless_count_report
           (Elem "feature_files" None
              [ Sample.feature "email" "5"; marker MoreSamples.textless_count ])
           MoreSamples.metadata
           [ nested_entry ("email", "5") ] MoreSamples.textless_count []).
  - reflexivity.
  - repeat split; eexists; split; reflexivity.
  - reflexivity.
  - reflexivity.
  - repeat constructor.
  - repeat constructor; eexists; reflexivity.
  - reflexivity.
  - reflexivity.
Defined.

(** X6. A marker with fewer than two elements after it ends the call
    with [StopIteration], after any number of entries that were read: the
    bullets of those entries are lost with it. *)
Theorem short_tail_raises (heading4 heading5 bullet : string -> string)
    (fs : FileSystem) (output_file_path : string)
    (xml feature_files : Element) (m : Metadata)
    (ts : list Entry) (last_marker : Element) (tail : list Element) :
  fs (Path.join output_file_path "report.xml") = Document xml ->
  has_metadata xml m ->
  find xml ["feature_files"] = Some feature_files ->
  iter feature_files = feature_files :: flat_map elements ts ++ last_marker :: tail ->
  Forall (fun t => tag (marker t) = "feature_file") ts ->
  Forall integer_count ts ->
  tag last_marker = "feature_file" ->
  (List.length tail < 2)%nat ->
  generate_summary_report heading4 heading5 bullet fs output_file_path =
    ([], Raised StopIteration).
Proof.
  intros Hfs Hm Hff Hiter Hmarkers Hint Ht Hlen.
  rewrite (report_of_section heading4 heading5 bullet fs output_file_path
             xml feature_files m Hfs Hm Hff).
  rewrite Hiter. cbn [tl].
  rewrite (scan_literals_then bullet ts _ _ Hmarkers Hint).
  cbn [scan]. rewrite Ht. cbn [String.eqb Ascii.eqb Bool.eqb].
  destruct tail as [| a [| b tail]]; [reflexivity | reflexivity |].
  simpl in Hlen. lia.
Qed.

Lemma short_tail_raises_witness :
  generate_summary_report Sample.heading4 Sample.heading5 Sample.bullet
    (fun _ => Document Sample.dangling_report) "/out" =
    ([], Raised StopIteration).
Proof.
  apply (short_tail_raises Sample.heading4 Sample.heading5 Sample.bullet
           (fun _ => Document Sample.dangling_report) "/out"
           Sample.dangling_report
           (Elem "feature_files" None
              [ Sample.feature "email" "5";
                Elem "feature_file" None [ Sample.leaf "name" "url" ] ])
           MoreSamples.metadata
           [ nested_entry ("email", "5") ]
           (Elem "feature_file" None [ Sample.leaf "name" "url" ])
           [ Sample.leaf "name" "url" ]).
  - reflexivity.
  - repeat split; eexists; split; reflexivity.
  - reflexivity.
  - reflexivity.
  - repeat constructor.
  - repeat constructor; eexists; reflexivity.
  - reflexivity.
  - simpl. lia.
Defined.

(** X7. A scanner-results section none of whose descendants is a marker
    counts as empty: the report ends with the scanner-results heading, has
    no bullet and no "no findings" line after it, and the summary is of
    zero artifacts. *)
Theorem no_markers_no_bullets (heading4 heading5 bullet : string -> string)
    (fs : FileSystem) (output_file_path : string)
    (xml feature_files : Element) (m : Metadata) :
  fs (Path.join output_file_path "report.xml") = Document xml ->
  has_metadata xml m ->
  find xml ["feature_files"] = Some feature_files ->
  Forall (fun e => tag e <> "feature_file") (iter feature_files) ->
  generate_summary_report heading4 heading5 bullet fs output_file_path =
    ([], Returned
           (join newline
              (run_summary heading4 heading5 bullet m ++ [ heading5 "Scanner Results" ]),
            "0 artifacts have been extracted.")).
Proof.
  intros Hfs Hm Hff Hnone.
  rewrite (report_of_section heading4 heading5 bullet fs output_file_path
             xml feature_files m Hfs Hm Hff).
  rewrite scan_no_markers; [reflexivity |].
  destruct feature_files as [t x cs]. cbn [iter tl] in *.
  inversion Hnone; assumption.
Qed.

Lemma no_markers_no_bullets_witness :
  generate_summary_report Sample.heading4 Sample.heading5 Sample.bullet
    (fun _ => Document MoreSamples.other_children_report) "/out" =
    ([], Returned
           (join newline
              [ "#### Bulk Extractor Results"; "##### Run Summary";
                "* Program: BULK_EXTRACTOR - 1.6.0";
                "* Command Line: bulk_extractor in -o out";
                "* Start Time: 2020-01-01T00:00:00Z";
                "* Elapsed Time: 42";
                "##### Scanner Results" ],
            "0 artifacts have been extracted.")).
Proof.
  apply (no_markers_no_bullets Sample.heading4 Sample.heading5 Sample.bullet
           (fun _ => Document MoreSamples.other_children_report) "/out"
           MoreSamples.other_children_report
           (Elem "feature_files" None [ Sample.leaf "note" "nothing ran" ])
           MoreSamples.metadata).
  - reflexivity.
  - repeat split; eexists; split; reflexivity.
  - reflexivity.
  - repeat constructor; discriminate.
Defined.

(** * Further properties of the task *)

(** X8. When the tool, the report and the compression all go through,
    [run] returns the result with the report as [report_data], closed once
    as a success with the summary as status; the output evidence carries
    the same report and is compressed; the three calls were made in the
    order execute, report, compress; the parser's warnings are kept. *)
Theorem run_success (heading4 heading5 bullet : string -> string)
    (host : Host) (output_dir evidence_local_path : string)
    (result0 : TurbiniaTaskResult)
    (logged : list string) (report summary : string) :
  let output_file_path := Path.join output_dir (Path.basename evidence_local_path) in
  let cmd := command evidence_local_path output_file_path in
  execute host cmd = None ->
  generate_summary_report heading4 heading5 bullet (files host) output_file_path =
    (logged, Returned (report, summary)) ->
  compress host (Some output_file_path) = None ->
  let final :=
    mkResult (result_log result0 ++ [running_line cmd]) (Some report)
             (close_calls result0 ++ [(true, summary)]) in
  run heading4 heading5 bullet host output_dir evidence_local_path result0 =
    (mkState final
       (mkOutput (Some output_file_path) (Some report) true)
       [ CallExecute cmd; CallGenerateSummaryReport output_file_path;
         CallCompress (Some output_file_path) ]
       logged,
     Returned final).
Proof.
  intros output_file_path cmd Hexec Hreport Hcompress final.
  subst final. unfold_run. fold output_file_path. fold cmd.
  rewrite Hexec. cbv beta iota. rewrite Hreport. cbv beta iota.
  rewrite Hcompress. reflexivity.
Qed.

Lemma run_success_witness :
  snd (run Sample.heading4 Sample.heading5 Sample.bullet
         (MoreSamples.quiet_host
            (Sample.only "/out/disk.img/report.xml" (Document MoreSamples.signed_report)))
         "/out" "/data/disk.img" Sample.fresh_result) =
    Returned
      (mkResult
         [ "Running Bulk Extractor as [bulk_extractor /data/disk.img -o /out/disk.img]" ]
         (Some (join newline
                  [ "#### Bulk Extractor Results"; "##### Run Summary";
                    "* Program: BULK_EXTRACTOR - 1.6.0";
                    "* Command Line: bulk_extractor in -o out";
                    "* Start Time: 2020-01-01T00:00:00Z";
                    "* Elapsed Time: 42";
                    "##### Scanner Results";
                    "* removed:-3"; "* added: 7"; "* kept:1_000" ]))
         [ (true, "1004 artifacts have been extracted.") ]).
Proof.
  rewrite (run_success Sample.heading4 Sample.heading5 Sample.bullet
             (MoreSamples.quiet_host
                (Sample.only "/out/disk.img/report.xml"
                   (Document MoreSamples.signed_report)))
             "/out" "/data/disk.img" Sample.fresh_result []
             (join newline
                  [ "#### Bulk Extractor Results"; "##### Run Summary";
                    "* Program: BULK_EXTRACTOR - 1.6.0";
                    "* Command Line: bulk_extractor in -o out";
                    "* Start Time: 2020-01-01T00:00:00Z";
                    "* Elapsed Time: 42";
                    "##### Scanner Results";
                    "* removed:-3"; "* added: 7"; "* kept:1_000" ])
             "1004 artifacts have been extracted."
             eq_refl eq_refl eq_refl).
  reflexivity.
Defined.

(** X9. When the compression raises a task-level exception, the task
    fails with that exception's message as status and the summary is
    dropped, but the report was attached before: the returned result and
    the output evidence both carry it, and the evidence is not marked
    compressed. *)
Theorem compression_failure_keeps_report (heading4 heading5 bullet : string -> string)
    (host : Host) (output_dir evidence_local_path : string)
    (result0 : TurbiniaTaskResult)
    (logged : list string) (report summary message : string) :
  let output_file_path := Path.join output_dir (Path.basename evidence_local_path) in
  let cmd := command evidence_local_path output_file_path in
  let outcome := run heading4 heading5 bullet host output_dir evidence_local_path result0 in
  execute host cmd = None ->
  generate_summary_report heading4 heading5 bullet (files host) output_file_path =
    (logged, Returned (report, summary)) ->
  compress host (Some output_file_path) = Some (TurbiniaException message) ->
  snd outcome = Returned (result (fst outcome)) /\
  close_calls (result (fst outcome)) = (close_calls result0 ++ [(false, message)])%list /\
  report_data (result (fst outcome)) = Some report /\
  output_evidence (fst outcome) = mkOutput (Some output_file_path) (Some report) false.
Proof.
  intros output_file_path cmd outcome Hexec Hreport Hcompress.
  subst outcome. unfold_run. fold output_file_path. fold cmd.
  rewrite Hexec. cbv beta iota. rewrite Hreport. cbv beta iota.
  rewrite Hcompress. repeat split.
Qed.

Lemma compression_failure_keeps_report_witness :
  let host := mkHost (fun _ => None)
                (Sample.only "/out/disk.img/report.xml" NoFile)
                (fun _ => Some (TurbiniaException "no such directory")) in
  let outcome := run Sample.heading4 Sample.heading5 Sample.bullet
                   host "/out" "/data/disk.img" Sample.fresh_result in
  close_calls (result (fst outcome)) = [ (false, "no such directory") ] /\
  report_data (result (fst outcome)) =
    Some "Execution successful, but the report is not available.".
Proof.
  intros host outcome.
  destruct (compression_failure_keeps_report
              Sample.heading4 Sample.heading5 Sample.bullet
              host "/out" "/data/disk.img" Sample.fresh_result
              [] "Execution successful, but the report is not available."
              "Execution successful, but the report is not available."
              "no such directory" eq_refl eq_refl eq_refl)
    as (_ & Hclose & Hdata & _).
  split; [exact Hclose | exact Hdata].
Defined.

(** X10. Whatever [generate_summary_report] raises escapes [run] as it
    is: it is never a task-level exception, so the handler does not take
    it. The result is left unclosed and without report data, the evidence
    without text, and the compression is never called. *)
Theorem report_errors_escape_run (heading4 heading5 bullet : string -> string)
    (host : Host) (output_dir evidence_local_path : string)
    (result0 : TurbiniaTaskResult) (logged : list string) (e : Exn) :
  let output_file_path := Path.join output_dir (Path.basename evidence_local_path) in
  let cmd := command evidence_local_path output_file_path in
  let outcome := run heading4 heading5 bullet host output_dir evidence_local_path result0 in
  execute host cmd = None ->
  generate_summary_report heading4 heading5 bullet (files host) output_file_path =
    (logged, Raised e) ->
  snd outcome = Raised e /\
  close_calls (result (fst outcome)) = close_calls result0 /\
  report_data (result (fst outcome)) = report_data result0 /\
  text_data (output_evidence (fst outcome)) = None /\
  calls (fst outcome) = [ CallExecute cmd; CallGenerateSummaryReport output_file_path ].
Proof.
  intros output_file_path cmd outcome Hexec Hreport.
  pose proof (report_raises_no_task_exception heading4 heading5 bullet _ _ _ _ Hreport)
    as He.
  subst outcome. unfold_run. fold output_file_path. fold cmd.
  rewrite Hexec. cbv beta iota. rewrite Hreport. cbv beta iota.
  destruct e; try discriminate He; repeat split.
Qed.

Lemma report_errors_escape_run_witness :
  let host := MoreSamples.quiet_host
                (Sample.only "/out/disk.img/report.xml"
                   (Document Sample.bad_count_report)) in
  let outcome := run Sample.heading4 Sample.heading5 Sample.bullet
                   host "/out" "/data/disk.img" Sample.fresh_result in
  snd outcome = Raised (ValueError "many") /\
  close_calls (result (fst outcome)) = [].
Proof.
  intros host outcome.
  destruct (report_errors_escape_run Sample.heading4 Sample.heading5 Sample.bullet
              host "/out" "/data/disk.img" Sample.fresh_result
              [] (ValueError "many") eq_refl eq_refl)
    as (Hout & Hclose & _).
  split; [exact Hout | exact Hclose].
Defined.

(** X11. On every path, returning or raising, [run] has logged exactly
    one line to the result, naming the command, has set the output
    evidence's path to the output directory joined with the evidence's
    base name, and has made the call to execute first, with the command
    that ends in that path. *)
Theorem run_always_logs_and_sets_path (heading4 heading5 bullet : string -> string)
    (host : Host) (output_dir evidence_local_path : string)
    (result0 : TurbiniaTaskResult) :
  let output_file_path := Path.join output_dir (Path.basename evidence_local_path) in
  let cmd := "bulk_extractor " ++ evidence_local_path ++ " -o " ++ output_file_path in
  let outcome := run heading4 heading5 bullet host output_dir evidence_local_path result0 in
  result_log (result (fst outcome)) =
    (result_log result0 ++ [ ("Running Bulk Extractor as [" ++ cmd ++ "]")%string ])%list /\
  local_path (output_evidence (fst outcome)) = Some output_file_path /\
  hd_error (calls (fst outcome)) = Some (CallExecute cmd).
Proof.
  intros output_file_path cmd outcome. subst outcome.
  unfold_run. fold output_file_path. change (command evidence_local_path output_file_path) with cmd.
  destruct (execute host cmd) as [e |]; cbv beta iota.
  { destruct e; repeat split. }
  destruct (generate_summary_report heading4 heading5 bullet (files host) output_file_path)
    as [logged [[report summary] | e]]; cbv beta iota.
  2:{ destruct e; repeat split. }
  destruct (compress host (Some output_file_path)) as [e |]; cbv beta iota.
  { destruct e; repeat split. }
  repeat split.
Qed.

(** X12. The calls of [run] come in one order and each needs the one
    before it to have returned: the report is generated only once the tool
    has run, and the output is compressed only once a report was returned.
    Nothing is called after a call that raised. *)
Theorem calls_in_order (heading4 heading5 bullet : string -> string)
    (host : Host) (output_dir evidence_local_path : string)
    (result0 : TurbiniaTaskResult) :
  let output_file_path := Path.join output_dir (Path.basename evidence_local_path) in
  let cmd := command evidence_local_path output_file_path in
  let made := calls (fst (run heading4 heading5 bullet host output_dir
                            evidence_local_path result0)) in
  let generated :=
    generate_summary_report heading4 heading5 bullet (files host) output_file_path in
  (exists e, execute host cmd = Some e /\ made = [ CallExecute cmd ]) \/
  (execute host cmd = None /\ (exists e, snd generated = Raised e) /\
   made = [ CallExecute cmd; CallGenerateSummaryReport output_file_path ]) \/
  (execute host cmd = None /\ (exists pair, snd generated = Returned pair) /\
   made = [ CallExecute cmd; CallGenerateSummaryReport output_file_path;
            CallCompress (Some output_file_path) ]).
Proof.
  intros output_file_path cmd made generated. subst made generated.
  unfold_run. fold output_file_path. fold cmd.
  destruct (execute host cmd) as [e |]; cbv beta iota.
  - left. exists e. split; [reflexivity |]. destruct e; reflexivity.
  - right.
    destruct (generate_summary_report heading4 heading5 bullet (files host) output_file_path)
      as [logged [[report summary] | e]]; cbv beta iota.
    + right. split; [reflexivity |]. split; [eexists; reflexivity |].
      destruct (compress host (Some output_file_path)) as [[] |]; reflexivity.
    + left. split; [reflexivity |]. split; [eexists; reflexivity |].
      destruct e; reflexivity.
Qed.

(** X13. A run whose tool leaves no report file still succeeds: the
    result is closed once as a success, and both its status and its report
    data are the fixed text "Execution successful, but the report is not
    available.". *)
Theorem run_without_report_succeeds (heading4 heading5 bullet : string -> string)
    (host : Host) (output_dir evidence_local_path : string)
    (result0 : TurbiniaTaskResult) :
  let output_file_path := Path.join output_dir (Path.basename evidence_local_path) in
  let cmd := command evidence_local_path output_file_path in
  let outcome := run heading4 heading5 bullet host output_dir evidence_local_path result0 in
  execute host cmd = None ->
  files host (Path.join output_file_path "report.xml") = NoFile ->
  compress host (Some output_file_path) = None ->
  snd outcome = Returned (result (fst outcome)) /\
  close_calls (result (fst outcome)) =
    (close_calls result0 ++
     [ (true, "Execution successful, but the report is not available.") ])%list /\
  report_data (result (fst outcome)) =
    Some "Execution successful, but the report is not available." /\
  warnings (fst outcome) = [].
Proof.
  intros output_file_path cmd outcome Hexec Hfile Hcompress.
  subst outcome. unfold_run. fold output_file_path. fold cmd.
  rewrite Hexec. cbv beta iota.
  unfold generate_summary_report. rewrite Hfile. cbv beta iota.
  rewrite Hcompress. repeat split.
Qed.

Lemma run_without_report_succeeds_witness :
  let outcome := run Sample.heading4 Sample.heading5 Sample.bullet
                   (MoreSamples.quiet_host (fun _ => NoFile))
                   "/out" "/data/disk.img" Sample.fresh_result in
  close_calls (result (fst outcome)) =
    [ (true, "Execution successful, but the report is not available.") ].
Proof.
  intro outcome.
  destruct (run_without_report_succeeds Sample.heading4 Sample.heading5 Sample.bullet
              (MoreSamples.quiet_host (fun _ => NoFile))
              "/out" "/data/disk.img" Sample.fresh_result eq_refl eq_refl eq_refl)
    as (_ & Hclose & _).
  exact Hclose.
Defined.

(** X14. A report with a metadata field missing does not fail the task:
    [run] closes the result once as a success with the status "0 artifacts
    have been extracted.", attaches the partial report that
    [generate_summary_report] returned to the result and to the evidence,
    compresses the output, and keeps the one warning of the parser. *)
Theorem partial_report_is_success (heading4 heading5 bullet : string -> string)
    (host : Host) (output_dir evidence_local_path : string)
    (result0 : TurbiniaTaskResult) (xml : Element) :
  let output_file_path := Path.join output_dir (Path.basename evidence_local_path) in
  let cmd := command evidence_local_path output_file_path in
  let outcome := run heading4 heading5 bullet host output_dir evidence_local_path result0 in
  execute host cmd = None ->
  files host (Path.join output_file_path "report.xml") = Document xml ->
  missing_field xml = true ->
  compress host (Some output_file_path) = None ->
  snd outcome = Returned (result (fst outcome)) /\
  close_calls (result (fst outcome)) =
    (close_calls result0 ++ [ (true, "0 artifacts have been extracted.") ])%list /\
  (exists report,
     generate_summary_report heading4 heading5 bullet (files host) output_file_path =
       ([ "Error parsing feature from Bulk Extractor report: 'NoneType' object has no attribute 'text'" ],
        Returned (report, "0 artifacts have been extracted.")) /\
     report_data (result (fst outcome)) = Some report /\
     text_data (output_evidence (fst outcome)) = Some report) /\
  compressed (output_evidence (fst outcome)) = true /\
  warnings (fst outcome) =
    [ "Error parsing feature from Bulk Extractor report: 'NoneType' object has no attribute 'text'" ].
Proof.
  intros output_file_path cmd outcome Hexec Hfile Hmiss Hcompress.
  assert (Hreport : exists report,
            generate_summary_report heading4 heading5 bullet (files host)
              output_file_path =
              ([ warning_of "'NoneType' object has no attribute 'text'" ],
               Returned (report, summary_of 0))).
  { unfold generate_summary_report. rewrite Hfile.
    destruct (extract_missing_field heading4 heading5 bullet xml Hmiss)
      as (lines & -> & _).
    eexists. reflexivity. }
  destruct Hreport as [report Hreport].
  subst outcome. unfold_run. fold output_file_path. fold cmd.
  rewrite Hexec. cbv beta iota. rewrite Hreport. cbv beta iota.
  rewrite Hcompress.
  repeat split. exists report. repeat split.
Qed.

Lemma partial_report_is_success_witness :
  let outcome := run Sample.heading4 Sample.heading5 Sample.bullet
                   (MoreSamples.quiet_host
                      (fun _ => Document MoreSamples.no_version_report))
                   "/out" "/data/disk.img" Sample.fresh_result in
  close_calls (result (fst outcome)) = [ (true, "0 artifacts have been extracted.") ] /\
  report_data (result (fst outcome)) =
    Some (join newline [ "#### Bulk Extractor Results"; "##### Run Summary" ]).
Proof.
  intro outcome.
  destruct (partial_report_is_success Sample.heading4 Sample.heading5 Sample.bullet
              (MoreSamples.quiet_host (fun _ => Document MoreSamples.no_version_report))
              "/out" "/data/disk.img" Sample.fresh_result
              MoreSamples.no_version_report eq_refl eq_refl eq_refl eq_refl)
    as (_ & Hclose & (report & Hreport & Hdata & _) & _).
  split; [exact Hclose |].
  fold outcome in Hdata. rewrite Hdata.
  vm_compute in Hreport. injection Hreport as <-. reflexivity.
Defined.

(** ** Where the output goes *)

Lemma has_sep_cons (c : ascii) (p : string) :
  has_sep (String c p) = (Ascii.eqb c Path.sep || has_sep p)%bool.
Proof. unfold has_sep. simpl. rewrite Ascii.eqb_sym. reflexivity. Qed.

Lemma basename_no_sep (p : string) : has_sep (Path.basename p) = false.
Proof.
  induction p as [| c rest IH]; [reflexivity |].
  cbn [Path.basename].
  destruct (Ascii.eqb c Path.sep) eqn:Ec; [exact IH |].
  fold (has_sep rest).
  destruct (has_sep rest) eqn:Er; [exact IH |].
  rewrite has_sep_cons, Ec, Er. reflexivity.
Qed.

(** A name without separator is its own base name. *)
Lemma basename_of_name (b : string) : has_sep b = false -> Path.basename b = b.
Proof.
  destruct b as [| c rest]; [reflexivity |].
  rewrite has_sep_cons. intro H. apply orb_false_iff in H as [Ec Er].
  cbn [Path.basename]. rewrite Ec. fold (has_sep rest). rewrite Er. reflexivity.
Qed.

Lemma has_sep_app_sep (a b : string) : has_sep (a ++ String Path.sep b) = true.
Proof.
  induction a as [| c a IH]; cbn [String.append].
  - rewrite has_sep_cons, Ascii.eqb_refl. reflexivity.
  - rewrite has_sep_cons, IH. apply orb_true_r.
Qed.

(** The base name of a directory, a separator and a name is the name. *)
Lemma basename_app_sep (a b : string) :
  has_sep b = false -> Path.basename (a ++ String Path.sep b) = b.
Proof.
  intro Hb. induction a as [| c a IH]; cbn [String.append Path.basename].
  - rewrite Ascii.eqb_refl. apply basename_of_name, Hb.
  - destruct (Ascii.eqb c Path.sep); [exact IH |].
    fold (has_sep (a ++ String Path.sep b)). rewrite has_sep_app_sep. exact IH.
Qed.

Lemma endswith_sep_split (a : string) :
  Path.endswith_sep a = true -> exists a', a = a' ++ String Path.sep "".
Proof.
  induction a as [| c a IH]; [discriminate |].
  cbn [Path.endswith_sep]. destruct a as [| d a].
  - intro H. apply Ascii.eqb_eq in H. subst c. exists "". reflexivity.
  - intro H. destruct (IH H) as [a' Ha']. exists (String c a').
    cbn [String.append]. rewrite <- Ha'. reflexivity.
Qed.

Lemma append_assoc (a b c : string) : (a ++ b) ++ c = a ++ (b ++ c).
Proof. induction a as [| x a IH]; cbn [String.append]; [| rewrite IH]; reflexivity. Qed.

Lemma prefix_append (a b : string) : String.prefix a (a ++ b) = true.
Proof.
  induction a as [| c a IH]; cbn [String.append String.prefix].
  - destruct b; reflexivity.
  - destruct (ascii_dec c c) as [_ | N]; [exact IH | contradiction N; reflexivity].
Qed.

Lemma startswith_sep_has_sep (b : string) :
  has_sep b = false -> Path.startswith_sep b = false.
Proof.
  destruct b as [| c b]; [reflexivity |].
  rewrite has_sep_cons. intro H. apply orb_false_iff in H as [Ec _]. exact Ec.
Qed.

(** Joining a name without separator appends it, after a separator where
    the directory does not end in one. *)
Lemma join_name (a b : string) :
  has_sep b = false ->
  Path.join a b = a ++ b \/ Path.join a b = a ++ String Path.sep b.
Proof.
  intro Hb. unfold Path.join. rewrite (startswith_sep_has_sep b Hb).
  destruct (String.eqb a "" || Path.endswith_sep a)%bool; [left | right]; reflexivity.
Qed.

(** The base name of the output path is the base name of the evidence. *)
Lemma join_keeps_base_name (output_dir evidence_local_path : string) :
  Path.basename (Path.join output_dir (Path.basename evidence_local_path)) =
    Path.basename evidence_local_path.
Proof.
  pose proof (basename_no_sep evidence_local_path) as Hb.
  set (b := Path.basename evidence_local_path) in *.
  unfold Path.join. rewrite (startswith_sep_has_sep b Hb).
  destruct (String.eqb_spec output_dir "") as [-> | Hne]; cbn [orb].
  - apply basename_of_name, Hb.
  - destruct (Path.endswith_sep output_dir) eqn:He.
    + destruct (endswith_sep_split output_dir He) as [a' ->].
      rewrite append_assoc. cbn [String.append]. apply basename_app_sep, Hb.
    + apply basename_app_sep, Hb.
Qed.

(** X15. The output directory of the tool is always under the task's
    output directory: whatever the evidence path, absolute or not, the
    output evidence's path is the task's output directory followed by the
    evidence's base name, after one separator where one is needed; that
    base name holds no separator, and it is the base name of the output
    path as well. *)
Theorem output_under_output_dir (heading4 heading5 bullet : string -> string)
    (host : Host) (output_dir evidence_local_path : string)
    (result0 : TurbiniaTaskResult) :
  let base_name := Path.basename evidence_local_path in
  exists output_file_path,
    local_path (output_evidence
      (fst (run heading4 heading5 bullet host output_dir evidence_local_path result0))) =
      Some output_file_path /\
    (output_file_path = output_dir ++ base_name \/
     output_file_path = output_dir ++ "/" ++ base_name) /\
    String.prefix output_dir output_file_path = true /\
    has_sep base_name = false /\
    Path.basename output_file_path = base_name.
Proof.
  intro base_name. exists (Path.join output_dir base_name).
  pose proof (basename_no_sep evidence_local_path) as Hb. fold base_name in Hb.
  split; [| split; [| split; [| split]]].
  - unfold_run. fold base_name.
    destruct (execute host _) as [e |]; cbv beta iota.
    { destruct e; reflexivity. }
    destruct (generate_summary_report heading4 heading5 bullet (files host) _)
      as [logged [[report summary] | e]]; cbv beta iota.
    2:{ destruct e; reflexivity. }
    destruct (compress host _) as [e |]; cbv beta iota; [destruct e |]; reflexivity.
  - apply join_name, Hb.
  - destruct (join_name output_dir base_name Hb) as [-> | ->]; apply prefix_append.
  - exact Hb.
  - apply join_keeps_base_name.
Qed.
